(** * Paint Products Search (app.py): catalog loader and fuzzy search filter

    A shallow embedding of [src/app.py]: the catalog loader
    [load_paint_catalogs] and the search block that follows it, together with
    the Python built-ins the two rely on (string methods, [float], [str],
    the [.2f] format).

    Conventions.
    - A Python [str] is a [string]; case mapping and whitespace are those of
      the ASCII range, a non-ASCII character is the bytes of its UTF-8 form.
      [float] alone reads the Unicode spaces and decimal digits too.
    - A Python [float] is a [spec_float] (IEEE 754 binary64, as in the
      standard library's specification of floats), a Python [int] is a [Z].
    - A raised exception is the [Raise] case of [result]. *)

From Stdlib Require Import ZArith List String Ascii Bool Lia.
From Stdlib Require Import DecimalString DecimalPos DecimalZ SpecFloat.
Import ListNotations.

Local Open Scope string_scope.
Local Open Scope Z_scope.

(** ** Python strings *)

Module Py.

(** [str.isspace] on one character: tab, line feed, vertical tab, form feed,
    carriage return, the separators 0x1c-0x1f and the space. *)
Definition isspace (c : ascii) : bool :=
  let n := Z.of_N (N_of_ascii c) in
  ((9 <=? n) && (n <=? 13)) || ((28 <=? n) && (n <=? 32)).

Definition lower_char (c : ascii) : ascii :=
  let n := N_of_ascii c in
  if ((65 <=? n) && (n <=? 90))%N then ascii_of_N (n + 32) else c.

(** [s.lower()] *)
Fixpoint lower (s : string) : string :=
  match s with
  | EmptyString => EmptyString
  | String c r => String (lower_char c) (lower r)
  end.

Fixpoint lstrip (s : string) : string :=
  match s with
  | EmptyString => EmptyString
  | String c r => if isspace c then lstrip r else s
  end.

Fixpoint rstrip (s : string) : string :=
  match s with
  | EmptyString => EmptyString
  | String c r =>
      match rstrip r with
      | EmptyString => if isspace c then EmptyString else String c EmptyString
      | r' => String c r'
      end
  end.

(** [s.strip()] *)
Definition strip (s : string) : string := rstrip (lstrip s).

(** Truth value of a [str]: non-empty. *)
Definition truthy_str (s : string) : bool :=
  match s with EmptyString => false | _ => true end.

(** [s.split()] with no separator: the maximal runs of non-whitespace
    characters, in order; [word] is the run being read. *)
Fixpoint split_from (word : string) (s : string) : list string :=
  match s with
  | EmptyString => if truthy_str word then [word] else []
  | String c r =>
      if isspace c
      then (if truthy_str word then [word] else []) ++ split_from EmptyString r
      else split_from (word ++ String c EmptyString) r
  end.

Definition split (s : string) : list string := split_from EmptyString s.

(** [sep.join(parts)] *)
Fixpoint join (sep : string) (parts : list string) : string :=
  match parts with
  | [] => EmptyString
  | [p] => p
  | p :: rest => p ++ sep ++ join sep rest
  end.

(** [str(n)] for an [int]. *)
Definition str_int (n : Z) : string := NilZero.string_of_int (Z.to_int n).

(** *** Floats *)

Definition float := spec_float.

(** Round to binary64, ties to even. *)
Definition to_binary64 (m e : Z) : float := binary_normalize 53 1024 m e false.

Inductive exn : Type :=
  | IndexError
  | OverflowError
  | ValueError
  | TypeError
  | ReadError (msg : string).

(** [str(e)] for the exceptions above. *)
Definition exn_message (e : exn) : string :=
  match e with
  | IndexError => "single positional indexer is out-of-bounds"
  | OverflowError => "int too large to convert to float"
  | ValueError => "could not convert string to float"
  | TypeError => "float() argument must be a string or a real number"
  | ReadError msg => msg
  end.

Inductive result (A : Type) : Type :=
  | Ok (a : A)
  | Raise (e : exn).
Arguments Ok {A} a.
Arguments Raise {A} e.

Definition bind {A B : Type} (r : result A) (k : A -> result B) : result B :=
  match r with
  | Ok a => k a
  | Raise e => Raise e
  end.

(** [float(n)] for an [int]: the nearest double, [OverflowError] beyond the
    largest one. *)
Definition float_of_int (n : Z) : result float :=
  match to_binary64 n 0 with
  | S754_infinity _ => Raise OverflowError
  | x => Ok x
  end.

Definition decimal_digits (p : positive) : Z :=
  Z.of_nat (String.length (NilZero.string_of_uint (Pos.to_uint p))).

(** The double nearest to [m * 10^e] ([m] positive), with sign [s]. *)
Definition float_of_decimal (s : bool) (m : positive) (e : Z) : float :=
  let mag := decimal_digits m + e in
  if 310 <? mag then S754_infinity s
  else if mag <? -330 then S754_zero s
  else if 0 <=? e then
    match to_binary64 (Zpos m * 10 ^ e) 0 with
    | S754_finite _ m' e' => S754_finite s m' e'
    | S754_infinity _ => S754_infinity s
    | _ => S754_zero s
    end
  else
    let d := 10 ^ (- e) in
    let k := Z.max 0 (66 + Z.log2 d - Z.log2 (Zpos m)) in
    let n := Zpos m * 2 ^ k in
    let q := n / d in
    let r := n mod d in
    let loc := if r =? 0 then loc_Exact else loc_Inexact (2 * r ?= d) in
    binary_round_aux 53 1024 s q (- k) loc.

Definition is_digit (c : ascii) : bool :=
  let n := N_of_ascii c in ((48 <=? n) && (n <=? 57))%N.

Definition digit_val (c : ascii) : Z := Z.of_N (N_of_ascii c) - 48.

(** Reads the rest of a [digitpart] (digits, each optionally preceded by one
    underscore) after its first digit: the value so far, the number of
    digits read and the unread rest. *)
Fixpoint digits_tail (acc : Z) (n : Z) (s : string) : Z * Z * string :=
  match s with
  | String c r =>
      if is_digit c then digits_tail (10 * acc + digit_val c) (n + 1) r
      else if Ascii.eqb c "_" then
        match r with
        | String c' r' =>
            if is_digit c'
            then digits_tail (10 * acc + digit_val c') (n + 1) r'
            else (acc, n, s)
        | EmptyString => (acc, n, s)
        end
      else (acc, n, s)
  | EmptyString => (acc, n, s)
  end.

(** A [digitpart] continuing the value [acc]: [None] when [s] does not start
    with a digit. *)
Definition digitpart (acc : Z) (s : string) : option (Z * Z * string) :=
  match s with
  | String c r =>
      if is_digit c then Some (digits_tail (10 * acc + digit_val c) 1 r)
      else None
  | EmptyString => None
  end.

Definition take_sign (s : string) : bool * string :=
  match s with
  | String c r =>
      if Ascii.eqb c "-" then (true, r)
      else if Ascii.eqb c "+" then (false, r)
      else (false, s)
  | EmptyString => (false, s)
  end.

(** [exponent]: nothing, or e/E, an optional sign and a [digitpart]; the
    exponent read and the rest. *)
Definition exponent (s : string) : option (Z * string) :=
  match s with
  | String c r =>
      if Ascii.eqb (lower_char c) "e" then
        let '(neg, r1) := take_sign r in
        match digitpart 0 r1 with
        | Some (v, _, rest) => Some (if neg then - v else v, rest)
        | None => None
        end
      else Some (0, s)
  | EmptyString => Some (0, s)
  end.

(** [number]: [digitpart] with an optional point, or an optional
    [digitpart], a point and a [digitpart]; the digits read as one integer,
    the number of them after the point, and the rest. *)
Definition number (s : string) : option (Z * Z * string) :=
  match digitpart 0 s with
  | Some (v, _, String c r) =>
      if Ascii.eqb c "." then
        match digitpart v r with
        | Some (v', n, rest) => Some (v', n, rest)
        | None => Some (v, 0, r)
        end
      else Some (v, 0, String c r)
  | Some (v, _, EmptyString) => Some (v, 0, EmptyString)
  | None =>
      match s with
      | String c r =>
          if Ascii.eqb c "." then digitpart 0 r else None
      | EmptyString => None
      end
  end.

(** *** The text [float] reads

    [float(s)] first brings [s] to ASCII: an ASCII text is taken as it is;
    otherwise every character from U+007F on is replaced, a Unicode space
    by a space and a decimal digit of any script by its ASCII digit, and
    the text is cut at the first other character, left as a question mark.
    Then the C whitespace at both ends is dropped. *)

(** The code points of a UTF-8 text; a byte that starts no well-formed
    sequence is read as U+FFFD. *)
Fixpoint code_points (s : string) : list N :=
  let cont (b : ascii) : option N :=
    let n := N_of_ascii b in
    if ((128 <=? n) && (n <? 192))%N then Some (n - 128)%N else None in
  match s with
  | EmptyString => []
  | String b0 r0 =>
      let n0 := N_of_ascii b0 in
      if (n0 <? 128)%N then n0 :: code_points r0
      else
        match r0 with
        | String b1 r1 =>
            match cont b1 with
            | Some c1 =>
                if ((192 <=? n0) && (n0 <? 224))%N
                then ((n0 - 192) * 64 + c1)%N :: code_points r1
                else
                  match r1 with
                  | String b2 r2 =>
                      match cont b2 with
                      | Some c2 =>
                          if ((224 <=? n0) && (n0 <? 240))%N
                          then ((n0 - 224) * 4096 + c1 * 64 + c2)%N
                               :: code_points r2
                          else
                            match r2 with
                            | String b3 r3 =>
                                match cont b3 with
                                | Some c3 =>
                                    if ((240 <=? n0) && (n0 <? 248))%N
                                    then ((n0 - 240) * 262144 + c1 * 4096
                                          + c2 * 64 + c3)%N
                                         :: code_points r3
                                    else 65533%N :: code_points r0
                                | None => 65533%N :: code_points r0
                                end
                            | EmptyString => 65533%N :: code_points r0
                            end
                      | None => 65533%N :: code_points r0
                      end
                  | EmptyString => 65533%N :: code_points r0
                  end
            | None => 65533%N :: code_points r0
            end
        | EmptyString => [65533%N]
        end
  end.

(** The Unicode spaces from U+007F on ([str.isspace]). *)
Definition unicode_space (cp : N) : bool :=
  ((cp =? 133) || (cp =? 160) || (cp =? 5760) ||
   ((8192 <=? cp) && (cp <=? 8202)) || (cp =? 8232) || (cp =? 8233) ||
   (cp =? 8239) || (cp =? 8287) || (cp =? 12288))%N.

(** The zero of each run of ten decimal digits (category Nd) after the
    ASCII ones, as of Unicode 14.0. *)
Definition decimal_zeros : list N :=
  [
    1632; 1776; 1984; 2406; 2534; 2662; 2790; 2918; 3046; 3174; 3302; 3430;
    3558; 3664; 3792; 3872; 4160; 4240; 6112; 6160; 6470; 6608; 6784; 6800;
    6992; 7088; 7232; 7248; 42528; 43216; 43264; 43472; 43504; 43600;
    44016; 65296; 66720; 68912; 69734; 69872; 69942; 70096; 70384; 70736;
    70864; 71248; 71360; 71472; 71904; 72016; 72784; 73040; 73120; 92768;
    92864; 93008; 120782; 120792; 120802; 120812; 120822; 123200; 123632;
    125264; 130032 ]%N.

(** The value of a decimal digit of any script. *)
Definition decimal_of (cp : N) : option N :=
  match find (fun z => (z <=? cp) && (cp <? z + 10))%N decimal_zeros with
  | Some z => Some (cp - z)%N
  | None => None
  end.

Fixpoint to_ascii (cps : list N) : string :=
  match cps with
  | [] => EmptyString
  | cp :: rest =>
      if (cp <? 127)%N then String (ascii_of_N cp) (to_ascii rest)
      else if unicode_space cp then String " " (to_ascii rest)
      else match decimal_of cp with
           | Some d => String (ascii_of_N (48 + d)) (to_ascii rest)
           | None => "?"
           end
  end.

Fixpoint is_ascii (s : string) : bool :=
  match s with
  | EmptyString => true
  | String c r => (N_of_ascii c <? 128)%N && is_ascii r
  end.

(** C's [isspace]: the space, tab, line feed, vertical tab, form feed and
    carriage return. *)
Definition c_isspace (c : ascii) : bool :=
  let n := N_of_ascii c in ((n =? 32) || ((9 <=? n) && (n <=? 13)))%N.

Fixpoint c_lstrip (s : string) : string :=
  match s with
  | EmptyString => EmptyString
  | String c r => if c_isspace c then c_lstrip r else s
  end.

Fixpoint c_rstrip (s : string) : string :=
  match s with
  | EmptyString => EmptyString
  | String c r =>
      match c_rstrip r with
      | EmptyString => if c_isspace c then EmptyString else String c EmptyString
      | r' => String c r'
      end
  end.

Definition float_text (s : string) : string :=
  c_rstrip (c_lstrip (if is_ascii s then s else to_ascii (code_points s))).

(** [float(s)] for a [str]: [ValueError] when [s] is not a float literal. *)
Definition float_of_str (s : string) : result float :=
  let '(neg, body) := take_sign (float_text s) in
  let word := lower body in
  if (String.eqb word "inf" || String.eqb word "infinity")%bool
  then Ok (S754_infinity neg)
  else if String.eqb word "nan" then Ok S754_nan
  else
    match number body with
    | Some (v, nfrac, rest) =>
        match exponent rest with
        | Some (e, EmptyString) =>
            match v with
            | Zpos m => Ok (float_of_decimal neg m (e - nfrac))
            | _ => Ok (S754_zero neg)
            end
        | _ => Raise ValueError
        end
    | None => Raise ValueError
    end.

(** Two decimal digits. *)
Definition two_digits (n : Z) : string :=
  (if n <? 10 then "0" else "") ++ str_int n.

(** [v] rounded to the nearest integer, ties to even, for [v = n / d]. *)
Definition round_half_even (n d : Z) : Z :=
  let q := n / d in
  let r := n mod d in
  match 2 * r ?= d with
  | Lt => q
  | Gt => q + 1
  | Eq => if Z.even q then q else q + 1
  end.

(** [f"{x:.2f}"] *)
Definition format_2f (x : float) : string :=
  match x with
  | S754_nan => "nan"
  | S754_infinity s => if s then "-inf" else "inf"
  | S754_zero s => if s then "-0.00" else "0.00"
  | S754_finite s m e =>
      let cents :=
        if 0 <=? e then Zpos m * 2 ^ e * 100
        else round_half_even (Zpos m * 100) (2 ^ (- e)) in
      (if s then "-" else "") ++ str_int (cents / 100) ++ "." ++
      two_digits (cents mod 100)
  end.

(** *** [repr] of a float: the shortest decimal that reads back as it *)

Fixpoint zeros (n : nat) : string :=
  match n with
  | O => EmptyString
  | S n' => String "0" (zeros n')
  end.

(** [n / d < 10^j], for positive [n] and [d]. *)
Definition below_pow10 (n d j : Z) : bool :=
  if 0 <=? j then n <? d * 10 ^ j else n * 10 ^ (- j) <? d.

(** The [k] with [10^(k-1) <= n / d < 10^k]. *)
Definition decimal_exponent (n d : positive) : Z :=
  let j := decimal_digits n - decimal_digits d in
  if below_pow10 (Zpos n) (Zpos d) j then j else j + 1.

(** The decimal [c * 10^ex] reads back as [x]. *)
Definition reads_back (x : float) (c ex : Z) : bool :=
  match c, x with
  | Zpos m, S754_finite _ mx ex' =>
      match float_of_decimal false m ex with
      | S754_finite _ m' e' => (Pos.eqb m' mx && (e' =? ex'))%bool
      | _ => false
      end
  | _, _ => false
  end.

(** The [n]-digit decimals just below and just above [num / den] scaled to
    [n] digits, and the one to print if either reads back as [x]. *)
Definition candidate (x : float) (num den : positive) (k n : Z)
  : option (Z * Z) :=
  let ex := k - n in
  let sn := if 0 <=? n - k then Zpos num * 10 ^ (n - k) else Zpos num in
  let sd := if 0 <=? n - k then Zpos den else Zpos den * 10 ^ (k - n) in
  let lo := sn / sd in
  let r := sn mod sd in
  let hi := if r =? 0 then lo else lo + 1 in
  match reads_back x lo ex, reads_back x hi ex with
  | true, true =>
      match 2 * r ?= sd with
      | Lt => Some (lo, ex)
      | Gt => Some (hi, ex)
      | Eq => Some (if Z.even lo then lo else hi, ex)
      end
  | true, false => Some (lo, ex)
  | false, true => Some (hi, ex)
  | false, false => None
  end.

Fixpoint shortest_from (fuel : nat) (x : float) (num den : positive)
    (k n : Z) : Z * Z :=
  match fuel with
  | O => (0, 0)
  | S fuel' =>
      match candidate x num den k n with
      | Some c => c
      | None => shortest_from fuel' x num den k (n + 1)
      end
  end.

Fixpoint drop_zeros (fuel : nat) (c ex : Z) : Z * Z :=
  match fuel with
  | O => (c, ex)
  | S fuel' =>
      if ((c mod 10 =? 0) && negb (c =? 0))%bool
      then drop_zeros fuel' (c / 10) (ex + 1)
      else (c, ex)
  end.

(** The digits and the position of the point ([0.d1d2... * 10^decpt]). *)
Definition shortest_digits (m : positive) (e : Z) : string * Z :=
  match to_binary64 (Zpos m) e with
  | S754_finite _ mx ex as x =>
      let num := if 0 <=? ex then (mx * Z.to_pos (2 ^ ex))%positive else mx in
      let den := if 0 <=? ex then 1%positive else Z.to_pos (2 ^ (- ex)) in
      let k := decimal_exponent num den in
      let '(c, cx) := shortest_from 17 x num den k 1 in
      let '(c', cx') := drop_zeros 20 c cx in
      let ds := str_int c' in
      (ds, Z.of_nat (String.length ds) + cx')
  | _ => ("0", 1)
  end.

(** [repr(x)], which is also [str(x)]. *)
Definition repr_float (x : float) : string :=
  match x with
  | S754_nan => "nan"
  | S754_infinity s => if s then "-inf" else "inf"
  | S754_zero s => if s then "-0.0" else "0.0"
  | S754_finite s m e =>
      let '(ds, decpt) := shortest_digits m e in
      let nd := String.length ds in
      let body :=
        if ((-4 <? decpt) && (decpt <=? 16))%bool then
          if decpt <=? 0 then "0." ++ zeros (Z.to_nat (- decpt)) ++ ds
          else if Z.of_nat nd <=? decpt
          then ds ++ zeros (Z.to_nat decpt - nd) ++ ".0"
          else substring 0 (Z.to_nat decpt) ds ++ "." ++
               substring (Z.to_nat decpt) (nd - Z.to_nat decpt) ds
        else
          let x10 := decpt - 1 in
          substring 0 1 ds ++
          (if (1 <? nd)%nat then "." ++ substring 1 (nd - 1) ds else "") ++
          "e" ++ (if x10 <? 0 then "-" else "+") ++ two_digits (Z.abs x10)
      in (if s then "-" else "") ++ body
  end.

End Py.

(** ** Cells, rows and sheets as pandas hands them to the loader *)

Module Pandas.
Import Py.

(** A value read from a sheet with [header=None], or [None]. An empty cell
    is the float NaN; a date is known by its [str()]. *)
Inductive cell : Type :=
  | CNone
  | CFloat (x : float)
  | CInt (n : Z)
  | CBool (b : bool)
  | CStr (s : string)
  | CDate (shown : string).

Definition NaN : cell := CFloat S754_nan.

(** [pd.notna(v)] *)
Definition notna (v : cell) : bool :=
  match v with
  | CNone => false
  | CFloat S754_nan => false
  | _ => true
  end.

(** Truth value of [v], as [if v] and [v and ...] test it. *)
Definition truthy (v : cell) : bool :=
  match v with
  | CNone => false
  | CFloat (S754_zero _) => false
  | CFloat _ => true
  | CInt n => negb (n =? 0)
  | CBool b => b
  | CStr s => truthy_str s
  | CDate _ => true
  end.

(** [str(v)], which is also how an f-string renders [v]. *)
Definition str (v : cell) : string :=
  match v with
  | CNone => "None"
  | CFloat x => repr_float x
  | CInt n => str_int n
  | CBool b => if b then "True" else "False"
  | CStr s => s
  | CDate shown => shown
  end.

(** [float(v)] *)
Definition to_float (v : cell) : result float :=
  match v with
  | CNone => Raise TypeError
  | CFloat x => Ok x
  | CInt n => float_of_int n
  | CBool b => Ok (if b then S754_finite false 4503599627370496 (-52)
                   else S754_zero false)
  | CStr s => float_of_str s
  | CDate _ => Raise TypeError
  end.

(** [v != 'N/A'] *)
Definition differs_from_NA (v : cell) : bool :=
  match v with
  | CStr s => negb (String.eqb s "N/A")
  | _ => true
  end.

Definition len {A : Type} (l : list A) : Z := Z.of_nat (List.length l).

(** [row.iloc[i]]: a negative [i] counts from the end; [IndexError] outside
    the row. *)
Definition iloc (row : list cell) (i : Z) : result cell :=
  let j := if i <? 0 then len row + i else i in
  if j <? 0 then Raise IndexError
  else match nth_error row (Z.to_nat j) with
       | Some v => Ok v
       | None => Raise IndexError
       end.

(** A sheet read with [header=None]: [ncols] is [df.shape[1]], [rows] what
    [df.iterrows()] yields. *)
Record frame : Type := { ncols : nat; rows : list (list cell) }.

(** Every row of a frame has [df.shape[1]] cells. *)
Definition rectangular (df : frame) : Prop :=
  Forall (fun row => List.length row = ncols df) (rows df).

(** What is at a vendor's path: nothing, a file [pd.ExcelFile] or
    [pd.read_excel] fails on (with the exception's text), or a workbook
    with its sheets in order, by name. *)
Inductive file : Type :=
  | Missing
  | Unreadable (why : string)
  | Workbook (sheets : list (string * frame)).

End Pandas.

(** ** The application *)

Module App.
Import Py Pandas.

Notation "x <- c1 ;; c2" := (bind c1 (fun x => c2))
  (at level 61, c1 at next level, right associativity).

Record vendor_config : Type := {
  filename : string;
  code_col : Z;
  desc_col : Z;
  extra_cols : list Z;   (* [config.get('extra_cols', [])] *)
  price_col : Z
}.

Definition akzo_config : vendor_config :=
  {| filename := "akzo.xlsx"; code_col := 0; desc_col := 4;
     extra_cols := []; price_col := 40 |}.

Definition crown_config : vendor_config :=
  {| filename := "crown.xlsx"; code_col := 0; desc_col := 4;
     extra_cols := [6; 7]; price_col := 17 |}.

Definition ppg_config : vendor_config :=
  {| filename := "ppg.xlsx"; code_col := 0; desc_col := 4;
     extra_cols := []; price_col := 15 |}.

(** [catalog_config], in the order of [catalog_config.items()]. *)
Definition catalog_config : list (string * vendor_config) :=
  [("Akzo", akzo_config); ("Crown", crown_config); ("PPG", ppg_config)].

(** One entry of [products], which is also one row of the catalog's
    DataFrame: [Code] is the cell as the frame holds it, so that
    [str(row['Code'])] is [str] of this field. *)
Record product : Type := {
  Code : cell;
  Product : string;
  Price : string;
  Catalog : string
}.

(** One value of [catalogs]. *)
Record catalog : Type := { data : list product; sheet : string }.

(** *** Sheet selection (lines 60-77) *)

Definition wide_enough (cfg : vendor_config) (s : string * frame) : bool :=
  desc_col cfg <? Z.of_nat (ncols (snd s)).

Definition select_sheet (catalog_name : string) (cfg : vendor_config)
    (sheets : list (string * frame)) : option (string * frame) :=
  if (String.eqb catalog_name "Crown" && (1 <? len sheets))%bool
  then nth_error sheets 1
  else find (wide_enough cfg) sheets.

(** *** One row (lines 86-117) *)

(** [row.iloc[col] if col < len(row) else None] *)
Definition cell_at (row : list cell) (col : Z) : result cell :=
  if col <? len row then iloc row col else Ok CNone.

(** [price_col = min(config['price_col'], df.shape[1] - 1)] *)
Definition clamped_price_col (cfg : vendor_config) (width : nat) : Z :=
  Z.min (price_col cfg) (Z.of_nat width - 1).

(** The loop over [extra_cols] that fills [extra_parts]. *)
Fixpoint extra_parts (row : list cell) (cols : list Z) : result (list string) :=
  match cols with
  | [] => Ok []
  | col_idx :: rest =>
      if col_idx <? len row then
        extra <- iloc row col_idx ;;
        parts <- extra_parts row rest ;;
        Ok (if (notna extra && truthy_str (strip (str extra)))%bool
            then strip (str extra) :: parts else parts)
      else extra_parts row rest
  end.

(** [desc] after the extra columns are appended. *)
Definition with_extras (desc : cell) (parts : list string) : cell :=
  match parts with
  | [] => desc
  | _ => CStr (if truthy desc then str desc ++ " " ++ join " " parts
               else join " " parts)
  end.

(** The test of line 103. *)
Definition has_description (desc : cell) : bool :=
  (truthy desc && notna desc && truthy_str (strip (str desc)))%bool.

(** [formatted_price] (lines 105-110). *)
Definition format_price (price : cell) : result string :=
  if (notna price && differs_from_NA price)%bool then
    match to_float price with
    | Ok x => Ok ("£" ++ format_2f x)
    | Raise ValueError | Raise TypeError => Ok (str price)
    | Raise e => Raise e
    end
  else Ok "N/A".

(** The body of the loop over [df.iterrows()]: the product appended for
    [row], if any. *)
Definition row_product (catalog_name : string) (cfg : vendor_config)
    (width : nat) (row : list cell) : result (option product) :=
  code <- cell_at row (code_col cfg) ;;
  desc <- cell_at row (desc_col cfg) ;;
  price <- cell_at row (clamped_price_col cfg width) ;;
  parts <- extra_parts row (extra_cols cfg) ;;
  let desc := with_extras desc parts in
  if has_description desc then
    formatted_price <- format_price price ;;
    Ok (Some {| Code := if notna code then code else CStr "N/A";
                Product := strip (str desc);
                Price := formatted_price;
                Catalog := catalog_name |})
  else Ok None.

Fixpoint sheet_products (catalog_name : string) (cfg : vendor_config)
    (width : nat) (rows : list (list cell)) : result (list product) :=
  match rows with
  | [] => Ok []
  | row :: rest =>
      p <- row_product catalog_name cfg width row ;;
      ps <- sheet_products catalog_name cfg width rest ;;
      Ok (match p with Some x => x :: ps | None => ps end)
  end.

(** *** One vendor: the body of the [try] (lines 57-123) *)

(** [pd.DataFrame(products)] is modelled by the list of products itself:
    each field is kept as the loop made it. pandas gives the Code column
    one dtype, so that an integer code beside a float code is held as a
    float; this unification is not modelled, and no property below relates
    the code of a loaded product to the value of its cell. *)

Definition load_vendor (catalog_name : string) (cfg : vendor_config)
    (f : file) : result (option catalog) :=
  match f with
  | Missing => Ok None
  | Unreadable why => Raise (ReadError why)
  | Workbook sheets =>
      match select_sheet catalog_name cfg sheets with
      | Some (sheet_name, df) =>
          if truthy_str sheet_name then
            products <- sheet_products catalog_name cfg (ncols df) (rows df) ;;
            Ok (match products with
                | [] => None
                | _ => Some {| data := products; sheet := sheet_name |}
                end)
          else Ok None
      | None => Ok None
      end
  end.

(** The workbook gives the vendor no product: the sheet selected in it, if
    there is one, is read without an exception and has no row with a
    description. *)
Definition yields_no_product (catalog_name : string) (cfg : vendor_config)
    (sheets : list (string * frame)) : Prop :=
  forall sheet_name df,
    select_sheet catalog_name cfg sheets = Some (sheet_name, df) ->
    sheet_products catalog_name cfg (ncols df) (rows df) = Ok [].

(** *** The loader (lines 25-128) *)

(** [d[k] = v] on a dict kept in insertion order. *)
Fixpoint dict_set {A : Type} (d : list (string * A)) (k : string) (v : A)
  : list (string * A) :=
  match d with
  | [] => [(k, v)]
  | (k', v') :: rest =>
      if String.eqb k' k then (k', v) :: rest
      else (k', v') :: dict_set rest k v
  end.

Fixpoint dict_get {A : Type} (d : list (string * A)) (k : string) : option A :=
  match d with
  | [] => None
  | (k', v) :: rest => if String.eqb k' k then Some v else dict_get rest k
  end.

(** The text of [st.warning] at line 126. *)
Definition warning_text (catalog_name : string) (e : exn) : string :=
  "Could not load " ++ catalog_name ++ " catalog: " ++ exn_message e.

(** The directory [data/paint]: what is at each file name. *)
Definition directory : Type := string -> file.

(** The loop over [catalog_config.items()], threading [catalogs] and the
    [st.warning] calls made so far (the vendor and the exception of each). *)
Fixpoint load_loop (config : list (string * vendor_config)) (dir : directory)
    (catalogs : list (string * catalog)) (warnings : list (string * exn))
  : list (string * catalog) * list (string * exn) :=
  match config with
  | [] => (catalogs, warnings)
  | (catalog_name, cfg) :: rest =>
      match load_vendor catalog_name cfg (dir (filename cfg)) with
      | Ok (Some c) =>
          load_loop rest dir (dict_set catalogs catalog_name c) warnings
      | Ok None => load_loop rest dir catalogs warnings
      | Raise e =>
          load_loop rest dir catalogs (warnings ++ [(catalog_name, e)])
      end
  end.

Definition load_catalogs_with (config : list (string * vendor_config))
    (dir : directory) : list (string * catalog) * list (string * exn) :=
  load_loop config dir [] [].

(** [load_paint_catalogs()]: the catalogs returned and the warnings made. *)
Definition load_paint_catalogs (dir : directory)
  : list (string * catalog) * list (string * exn) :=
  load_catalogs_with catalog_config dir.

(** What one pass of the loop leaves under the vendor's name: the catalog
    made, or nothing (no file, no usable sheet, no product, or an exception
    caught at line 125). *)
Definition entry_of (outcome : result (option catalog)) : option catalog :=
  match outcome with
  | Ok made => made
  | Raise _ => None
  end.

(** *** The search (lines 160-215) *)

Section Search.

(** [fuzz.token_set_ratio], the similarity score (0 to 100) of the
    fuzzywuzzy package. *)
Variable token_set_ratio : string -> string -> Z.

(** The [max(...)] of lines 179-182: the better of the term's scores
    against the row's code and against its description. *)
Definition term_score (row : product) (term : string) : Z :=
  Z.max (token_set_ratio term (lower (str (Code row))))
        (token_set_ratio term (lower (Product row))).

(** [min(... for term in search_terms) if search_terms else 0] *)
Definition match_score (row : product) (search_terms : list string) : Z :=
  match search_terms with
  | [] => 0
  | term :: rest =>
      fold_left Z.min (map (term_score row) rest) (term_score row term)
  end.

(** [df[df['match_score'] >= 50]] *)
Definition keeps (search_terms : list string) (row : product) : bool :=
  50 <=? match_score row search_terms.

Definition matching (search_terms : list string) (c : catalog) : list product :=
  filter (keeps search_terms) (data c).

(** [all_results]: the matching rows of every catalog, in the order of
    [catalogs.items()]. [pd.concat] is modelled by the concatenation of the
    rows; the dtype it gives the Code column (integers become floats when
    the catalogs differ in dtype) is not modelled. *)
Definition all_results (catalogs : list (string * catalog))
    (search_terms : list string) : list product :=
  List.concat (map (fun kv => matching search_terms (snd kv)) catalogs).

(** [filtered_results] (lines 198-201). *)
Definition filtered_results (catalog_filter : string)
    (results : list product) : list product :=
  if String.eqb catalog_filter "All" then results
  else filter (fun row => String.eqb (Catalog row) catalog_filter) results.

(** What the page shows below the divider. *)
Inductive st_call : Type :=
  | st_error (msg : string)
  | st_info (msg : string)
  | st_success (msg : string)
  | st_dataframe (table : list product)
  | st_warning (msg : string).

(** Lines 160-215, for the loaded [catalogs], the text of the search box,
    the value of the select box and whether the button was pressed. *)
Definition search_block (catalogs : list (string * catalog))
    (search_query catalog_filter : string) (search_button : bool)
  : list st_call :=
  if (truthy_str search_query || search_button)%bool then
    let query_lower :=
      if truthy_str search_query then lower search_query else "" in
    if negb (truthy_str query_lower) then
      [st_info "Enter a search term to find products"]
    else
      let search_terms := split query_lower in
      let results := all_results catalogs search_terms in
      if 0 <? len results then
        let filtered := filtered_results catalog_filter results in
        [st_success ("Found " ++ str_int (len filtered) ++
                     " product(s) in " ++ catalog_filter);
         st_dataframe filtered]
      else
        [st_warning ("No products found matching '" ++ search_query ++
                     "'. Try different keywords.")]
  else [].

(** The page (lines 130-215): the loader's warnings, then the error when no
    catalog was loaded, the search otherwise. *)
Definition page (dir : directory) (search_query catalog_filter : string)
    (search_button : bool) : list st_call :=
  let '(catalogs, warnings) := load_paint_catalogs dir in
  map (fun w => st_warning (warning_text (fst w) (snd w))) warnings ++
  match catalogs with
  | [] => [st_error
      "No paint catalogs found. Please ensure Excel files are in data/paint/ directory."]
  | _ => search_block catalogs search_query catalog_filter search_button
  end.

End Search.

End App.

(** ** Sample workbooks and a sample scorer, for the examples below *)

Module Samples.
Import Py Pandas App.

(** A scorer for the examples: 100 when [term] is one of the words of
    [field], 0 otherwise. ([fuzz.token_set_ratio] also gives 100 in the
    first case: the term is then the whole intersection of the two token
    sets.) *)
Definition token_hit_ratio (term field : string) : Z :=
  if existsb (String.eqb term) (split field) then 100 else 0.

(** A row of [width] cells, empty but for the cells listed by position. *)
Definition row_of (width : nat) (cells : list (nat * cell)) : list cell :=
  map (fun i =>
         match find (fun kv => Nat.eqb (fst kv) i) cells with
         | Some kv => snd kv
         | None => NaN
         end)
      (seq 0 width).

(** 12.5 *)
Definition f12_5 : float := S754_finite false 7036874417766400 (-49).

Definition akzo_sheet : frame :=
  {| ncols := 41;
     rows := [ row_of 41 [(0%nat, CStr "Code"); (4%nat, CStr "Description");
                          (40%nat, CStr "Price")];
               row_of 41 [(0%nat, CInt 5012345); (4%nat, CStr "Blue Matte Emulsion ");
                          (40%nat, CFloat f12_5)];
               row_of 41 [(0%nat, CStr "A7"); (4%nat, CStr "   ");
                          (40%nat, CFloat f12_5)];
               row_of 41 [(0%nat, CStr "A8"); (4%nat, CStr "Blue Gloss");
                          (40%nat, CStr "POA")];
               row_of 41 [(4%nat, CStr "White Primer")] ] |}.

Definition ppg_sheet : frame :=
  {| ncols := 16;
     rows := [ row_of 16 [(0%nat, CStr "P1"); (4%nat, CStr "Red Matte");
                          (15%nat, CStr "7.1")] ] |}.

Definition narrow_sheet : frame :=
  {| ncols := 3;
     rows := [ row_of 3 [(0%nat, CStr "C1"); (1%nat, CStr "x");
                         (2%nat, CStr "Blue Matt")] ] |}.

Definition crown_sheet : frame :=
  {| ncols := 8;
     rows := [ row_of 8 [(0%nat, CStr "C1"); (4%nat, CStr "Crown Trade");
                         (6%nat, CStr " Matt "); (7%nat, CStr "5L")];
               row_of 8 [(0%nat, CStr "C2"); (6%nat, CStr "Vinyl")] ] |}.

Definition blank_sheet : frame :=
  {| ncols := 16; rows := [ row_of 16 [(0%nat, CStr "P9")] ] |}.

(** Akzo and PPG present, no Crown file. *)
Definition dir_no_crown : directory :=
  fun name =>
    if String.eqb name "akzo.xlsx" then Workbook [("Sheet1", akzo_sheet)]
    else if String.eqb name "ppg.xlsx"
    then Workbook [("Notes", narrow_sheet); ("Prices", ppg_sheet)]
    else Missing.

(** As [dir_no_crown], with a Crown file that cannot be read. *)
Definition dir_bad_crown : directory :=
  fun name =>
    if String.eqb name "crown.xlsx" then Unreadable "File is not a zip file"
    else dir_no_crown name.

(** Only a Crown workbook, of a single sheet. *)
Definition dir_crown_one_sheet : directory :=
  fun name =>
    if String.eqb name "crown.xlsx" then Workbook [("Prices", crown_sheet)]
    else Missing.

(** Only a Crown workbook, whose second sheet has three columns. *)
Definition dir_crown_narrow : directory :=
  fun name =>
    if String.eqb name "crown.xlsx"
    then Workbook [("Cover", crown_sheet); ("Prices", narrow_sheet)]
    else Missing.

(** Only an Akzo workbook. *)
Definition dir_akzo_only : directory :=
  fun name =>
    if String.eqb name "akzo.xlsx" then Workbook [("Sheet1", akzo_sheet)]
    else Missing.

(** As [dir_no_crown], with a PPG workbook that has no described row. *)
Definition dir_blank_ppg : directory :=
  fun name =>
    if String.eqb name "ppg.xlsx" then Workbook [("Prices", blank_sheet)]
    else dir_no_crown name.

(** The Akzo catalog loaded from [dir_no_crown], and two of its products. *)
Definition akzo_loaded : catalog :=
  match dict_get (fst (load_paint_catalogs dir_no_crown)) "Akzo" with
  | Some c => c
  | None => {| data := []; sheet := "" |}
  end.

Definition blue_matte_emulsion : product :=
  {| Code := CInt 5012345; Product := "Blue Matte Emulsion";
     Price := "£12.50"; Catalog := "Akzo" |}.

Definition blue_gloss : product :=
  {| Code := CStr "A8"; Product := "Blue Gloss"; Price := "POA";
     Catalog := "Akzo" |}.

Definition white_primer : product :=
  {| Code := CStr "N/A"; Product := "White Primer"; Price := "N/A";
     Catalog := "Akzo" |}.

End Samples.

(** ** Readings the code is compared with *)

Module Claimed.
Import Py Pandas App.

(** A row scores at least 50 against every term. *)
Definition keeps_every_term (token_set_ratio : string -> string -> Z)
    (search_terms : list string) (row : product) : bool :=
  forallb (fun term => 50 <=? term_score token_set_ratio row term) search_terms.

(** A column index clamped to the sheet's width before the cell is read. *)
Definition clamped_cell_at (row : list cell) (width : nat) (col : Z)
  : result cell :=
  iloc row (Z.min col (Z.of_nat width - 1)).

(** Crown from the second sheet, the others from the first sheet wide
    enough. *)
Definition select_sheet (catalog_name : string) (cfg : vendor_config)
    (sheets : list (string * frame)) : option (string * frame) :=
  if String.eqb catalog_name "Crown" then nth_error sheets 1
  else find (wide_enough cfg) sheets.


End Claimed.

Import Py Pandas App.

(** * Properties *)

(** ** Strings *)

Lemma truthy_str_true (s : string) : truthy_str s = true <-> s <> "".
Proof.
  destruct s; simpl; split; intro H; try discriminate; try reflexivity.
  now elim H.
Qed.

Lemma lstrip_head (s : string) :
  lstrip s = "" \/ exists c r, lstrip s = String c r /\ isspace c = false.
Proof.
  induction s as [|c r IH]; simpl; [now left|].
  destruct (isspace c) eqn:E; [exact IH|].
  right. now exists c, r.
Qed.

Lemma rstrip_head (c : ascii) (r : string) :
  isspace c = false -> exists r', rstrip (String c r) = String c r'.
Proof.
  intro E. simpl. destruct (rstrip r) as [|c' r'].
  - rewrite E. now exists "".
  - now exists (String c' r').
Qed.

Lemma rstrip_idem (s : string) : rstrip (rstrip s) = rstrip s.
Proof.
  induction s as [|c r IH]; [reflexivity|].
  simpl. destruct (rstrip r) as [|c' r'] eqn:E.
  - destruct (isspace c) eqn:Ec; [reflexivity|]. simpl. now rewrite Ec.
  - change (rstrip (String c (String c' r')))
      with (match rstrip (String c' r') with
            | "" => if isspace c then "" else String c ""
            | x => String c x
            end).
    now rewrite IH.
Qed.

(** A stripped string is empty or starts with a character that is not
    whitespace. *)
Lemma strip_head (s : string) :
  strip s = "" \/ exists c r, strip s = String c r /\ isspace c = false.
Proof.
  unfold strip. destruct (lstrip_head s) as [E | (c & r & E & Hc)]; rewrite E.
  - now left.
  - right. destruct (rstrip_head c r Hc) as [r' E']. now exists c, r'.
Qed.

Lemma lstrip_strip (s : string) : lstrip (strip s) = strip s.
Proof.
  destruct (strip_head s) as [E | (c & r & E & Hc)]; rewrite E; simpl;
    [reflexivity | now rewrite Hc].
Qed.

(** [strip] leaves a stripped string as it is. *)
Lemma strip_idem (s : string) : strip (strip s) = strip s.
Proof.
  unfold strip at 1. rewrite lstrip_strip. unfold strip. apply rstrip_idem.
Qed.

(** ** Where a loaded product comes from *)

Lemma bind_ok {A B : Type} (r : result A) (k : A -> result B) (b : B) :
  bind r k = Ok b -> exists a, r = Ok a /\ k a = Ok b.
Proof.
  destruct r as [a|e]; simpl; [|discriminate]. intro H. now exists a.
Qed.

Ltac bind_inv H :=
  let a := fresh "a" in
  let Ha := fresh "Ha" in
  apply bind_ok in H; destruct H as (a & Ha & H).

Lemma dict_set_in {A : Type} (d : list (string * A)) (k n : string) (v c : A) :
  In (n, c) (dict_set d k v) -> (n = k /\ c = v) \/ In (n, c) d.
Proof.
  induction d as [|[k' v'] rest IH]; simpl.
  - intros [H | []]. inversion H. now left.
  - destruct (String.eqb k' k) eqn:E; simpl.
    + apply String.eqb_eq in E. intros [H | H].
      * inversion H. subst. now left.
      * right. now right.
    + intros [H | H]; [right; now left|].
      destruct (IH H) as [? | ?]; [now left | right; now right].
Qed.

Lemma load_loop_in (dir : directory) (config : list (string * vendor_config)) :
  forall catalogs warnings n c,
    In (n, c) (fst (load_loop config dir catalogs warnings)) ->
    In (n, c) catalogs \/
    exists cfg, In (n, cfg) config /\
                load_vendor n cfg (dir (filename cfg)) = Ok (Some c).
Proof.
  induction config as [|[name cfg] rest IH]; simpl; intros catalogs warnings n c H.
  - now left.
  - destruct (load_vendor name cfg (dir (filename cfg))) as [[c'|]|e] eqn:E.
    + destruct (IH _ _ _ _ H) as [Hin | (cfg' & Hin & Hv)].
      * apply dict_set_in in Hin. destruct Hin as [[-> ->] | Hin]; [|now left].
        right. exists cfg. split; [now left | exact E].
      * right. exists cfg'. split; [now right | exact Hv].
    + destruct (IH _ _ _ _ H) as [Hin | (cfg' & Hin & Hv)]; [now left|].
      right. exists cfg'. split; [now right | exact Hv].
    + destruct (IH _ _ _ _ H) as [Hin | (cfg' & Hin & Hv)]; [now left|].
      right. exists cfg'. split; [now right | exact Hv].
Qed.

Lemma load_vendor_some (name : string) (cfg : vendor_config) (f : file)
    (c : catalog) :
  load_vendor name cfg f = Ok (Some c) ->
  exists sheets df,
    f = Workbook sheets /\
    select_sheet name cfg sheets = Some (sheet c, df) /\
    sheet c <> "" /\
    sheet_products name cfg (ncols df) (rows df) = Ok (data c) /\
    data c <> [].
Proof.
  destruct f as [| why | sheets]; simpl; try discriminate.
  destruct (select_sheet name cfg sheets) as [[sname df]|] eqn:Es; [|discriminate].
  destruct (truthy_str sname) eqn:Et; [|discriminate].
  intro H. bind_inv H. destruct a as [|p ps]; [discriminate|].
  inversion H; subst; simpl.
  exists sheets, df. repeat split; auto.
  - now apply truthy_str_true.
  - discriminate.
Qed.

Lemma sheet_products_in (name : string) (cfg : vendor_config) (width : nat)
    (rows : list (list cell)) :
  forall ps p,
    sheet_products name cfg width rows = Ok ps -> In p ps ->
    exists row, In row rows /\ row_product name cfg width row = Ok (Some p).
Proof.
  induction rows as [|row rest IH]; simpl; intros ps p H Hin.
  - inversion H; subst. destruct Hin.
  - bind_inv H. bind_inv H. inversion H; subst; clear H.
    destruct a as [x|].
    + destruct Hin as [-> | Hin].
      * exists row. split; [now left | exact Ha].
      * destruct (IH _ _ Ha0 Hin) as (r & Hr & Hp).
        exists r. split; [now right | exact Hp].
    + destruct (IH _ _ Ha0 Hin) as (r & Hr & Hp).
      exists r. split; [now right | exact Hp].
Qed.

(** What a row that yields a product went through. *)
Lemma row_product_some (name : string) (cfg : vendor_config) (width : nat)
    (row : list cell) (p : product) :
  row_product name cfg width row = Ok (Some p) ->
  exists code desc price parts,
    cell_at row (code_col cfg) = Ok code /\
    cell_at row (desc_col cfg) = Ok desc /\
    cell_at row (clamped_price_col cfg width) = Ok price /\
    extra_parts row (extra_cols cfg) = Ok parts /\
    has_description (with_extras desc parts) = true /\
    format_price price = Ok (Price p) /\
    Product p = strip (str (with_extras desc parts)) /\
    Code p = (if notna code then code else CStr "N/A") /\
    Catalog p = name.
Proof.
  unfold row_product. intro H.
  bind_inv H. rename a into code, Ha into Hcode.
  bind_inv H. rename a into desc, Ha into Hdesc.
  bind_inv H. rename a into price, Ha into Hprice.
  bind_inv H. rename a into parts, Ha into Hparts.
  destruct (has_description (with_extras desc parts)) eqn:Ed; [|discriminate].
  bind_inv H. inversion H; subst; simpl.
  exists code, desc, price, parts. repeat split; auto.
Qed.

(** Every product of a loaded catalog was made from a row of the sheet
    selected in that vendor's workbook. *)
Lemma loaded_product_source (config : list (string * vendor_config))
    (dir : directory) (name : string) (c : catalog) (p : product) :
  In (name, c) (fst (load_catalogs_with config dir)) -> In p (data c) ->
  exists cfg sheets df row,
    In (name, cfg) config /\
    dir (filename cfg) = Workbook sheets /\
    select_sheet name cfg sheets = Some (sheet c, df) /\
    In row (rows df) /\
    row_product name cfg (ncols df) row = Ok (Some p).
Proof.
  intros Hc Hp. unfold load_catalogs_with in Hc.
  apply load_loop_in in Hc. destruct Hc as [[] | (cfg & Hcfg & Hv)].
  apply load_vendor_some in Hv.
  destruct Hv as (sheets & df & Hf & Hs & _ & Hps & _).
  destruct (sheet_products_in _ _ _ _ _ _ Hps Hp) as (row & Hrow & Hrp).
  exists cfg, sheets, df, row. repeat split; auto.
Qed.

(** ** Prices *)

Lemma differs_from_NA_false (v : cell) :
  differs_from_NA v = false -> v = CStr "N/A".
Proof.
  destruct v; simpl; try discriminate.
  intro H. apply negb_false_iff, String.eqb_eq in H. now subst.
Qed.

(** The three outcomes of the price formatting of lines 105-110. *)
Lemma format_price_cases (price : cell) (shown : string) :
  format_price price = Ok shown ->
  (notna price = false -> shown = "N/A") /\
  (forall x, notna price = true -> to_float price = Ok x ->
             shown = "£" ++ format_2f x) /\
  (notna price = true ->
   to_float price = Raise ValueError \/ to_float price = Raise TypeError ->
   shown = str price).
Proof.
  unfold format_price. intro H.
  destruct (notna price) eqn:En; simpl in H.
  - destruct (differs_from_NA price) eqn:Ed.
    + destruct (to_float price) as [x|e] eqn:Ef.
      * inversion H; subst. repeat split; intros; try discriminate.
        -- injection H1 as <-. reflexivity.
        -- destruct H1; discriminate.
      * destruct e; inversion H; subst; repeat split; intros;
          try discriminate; reflexivity.
    + apply differs_from_NA_false in Ed. subst price. inversion H; subst.
      repeat split; intros; try discriminate; reflexivity.
  - inversion H; subst. repeat split; intros; try discriminate; reflexivity.
Qed.

(** *** What the [.2f] format prints *)







(** C3, as amended. For every row kept by the loader: if the price cell is
    missing, or is the text "N/A", the product's price is the marker "N/A";
    if the price cell is present and non-numeric (one [float] rejects), the
    product's price is the cell's own text. *)
Theorem loader_price_marker (config : list (string * vendor_config))
    (dir : directory) (name : string) (c : catalog) (p : product) :
  In (name, c) (fst (load_catalogs_with config dir)) -> In p (data c) ->
  exists cfg sheets df row price,
    In (name, cfg) config /\
    dir (filename cfg) = Workbook sheets /\
    select_sheet name cfg sheets = Some (sheet c, df) /\
    In row (rows df) /\
    row_product name cfg (ncols df) row = Ok (Some p) /\
    cell_at row (clamped_price_col cfg (ncols df)) = Ok price /\
    (notna price = false \/ price = CStr "N/A" -> Price p = "N/A") /\
    (notna price = true ->
     to_float price = Raise ValueError \/ to_float price = Raise TypeError ->
     Price p = str price).
Proof.
  intros Hc Hp.
  destruct (loaded_product_source _ _ _ _ _ Hc Hp)
    as (cfg & sheets & df & row & Hcfg & Hdir & Hsel & Hrow & Hrp).
  destruct (row_product_some _ _ _ _ _ Hrp)
    as (code & desc & price & parts & _ & _ & Hprice & _ & _ & Hfmt & _).
  destruct (format_price_cases _ _ Hfmt) as (Hmissing & _ & Hraw).
  exists cfg, sheets, df, row, price.
  repeat split; auto.
  intros [Hna | ->]; [now apply Hmissing|].
  rewrite Hraw; [reflexivity | reflexivity | now left].
Qed.

Lemma loader_price_marker_witness :
  In ("Akzo", Samples.akzo_loaded)
     (fst (load_catalogs_with catalog_config Samples.dir_no_crown)) /\
  In Samples.white_primer (data Samples.akzo_loaded) /\
  exists cfg sheets df row price,
    In ("Akzo", cfg) catalog_config /\
    Samples.dir_no_crown (filename cfg) = Workbook sheets /\
    select_sheet "Akzo" cfg sheets = Some (sheet Samples.akzo_loaded, df) /\
    In row (rows df) /\
    row_product "Akzo" cfg (ncols df) row = Ok (Some Samples.white_primer) /\
    cell_at row (clamped_price_col cfg (ncols df)) = Ok price /\
    (notna price = false \/ price = CStr "N/A" ->
     Price Samples.white_primer = "N/A") /\
    (notna price = true ->
     to_float price = Raise ValueError \/ to_float price = Raise TypeError ->
     Price Samples.white_primer = str price).
Proof.
  assert (H1 : In ("Akzo", Samples.akzo_loaded)
                  (fst (load_catalogs_with catalog_config Samples.dir_no_crown)))
    by (vm_compute; left; reflexivity).
  assert (H2 : In Samples.white_primer (data Samples.akzo_loaded))
    by (vm_compute; do 3 right; left; reflexivity).
  split; [exact H1 | split; [exact H2 |]].
  exact (loader_price_marker catalog_config Samples.dir_no_crown "Akzo"
           Samples.akzo_loaded Samples.white_primer H1 H2).
Defined.

(** C3 as first stated fails on a non-numeric price: the Akzo row "A8" of
    [Samples.akzo_sheet] has the price text "POA", which [float] rejects;
    the loader keeps the row with the price "POA", not "N/A". *)
Lemma non_numeric_price_not_marker :
  let row := Samples.row_of 41 [(0%nat, CStr "A8"); (4%nat, CStr "Blue Gloss");
                                (40%nat, CStr "POA")] in
  In row (rows Samples.akzo_sheet) /\
  cell_at row (clamped_price_col
                 akzo_config 41)
    = Ok (CStr "POA") /\
  to_float (CStr "POA") = Raise ValueError /\
  row_product "Akzo"
    akzo_config 41 row
    = Ok (Some Samples.blue_gloss) /\
  In Samples.blue_gloss (data Samples.akzo_loaded) /\
  dict_get (fst (load_paint_catalogs Samples.dir_no_crown)) "Akzo"
    = Some Samples.akzo_loaded /\
  Price Samples.blue_gloss = "POA" /\
  Price Samples.blue_gloss <> "N/A".
Proof.
  cbv zeta. repeat split; try (vm_compute; reflexivity).
  - vm_compute. do 3 right. left. reflexivity.
  - vm_compute. do 2 right. left. reflexivity.
  - discriminate.
Qed.

(** ** Descriptions *)

(** C4. Every product of every loaded catalog has a description that is not
    empty and not blank (it is its own [strip], so it neither starts nor ends
    with whitespace); and a row whose description, after the extra columns
    are appended, is missing ([None] or NaN), empty or only whitespace
    yields no product. *)
Theorem loader_descriptions_not_blank :
  (forall (config : list (string * vendor_config)) (dir : directory)
          (name : string) (c : catalog) (p : product),
      In (name, c) (fst (load_catalogs_with config dir)) -> In p (data c) ->
      Product p <> "" /\ strip (Product p) = Product p) /\
  (forall (name : string) (cfg : vendor_config) (width : nat)
          (row : list cell) (desc : cell) (parts : list string),
      cell_at row (desc_col cfg) = Ok desc ->
      extra_parts row (extra_cols cfg) = Ok parts ->
      notna (with_extras desc parts) = false \/
      strip (str (with_extras desc parts)) = "" ->
      forall p, row_product name cfg width row <> Ok (Some p)).
Proof.
  split.
  - intros config dir name c p Hc Hp.
    destruct (loaded_product_source _ _ _ _ _ Hc Hp)
      as (cfg & sheets & df & row & _ & _ & _ & _ & Hrp).
    destruct (row_product_some _ _ _ _ _ Hrp)
      as (code & desc & price & parts & _ & _ & _ & _ & Hd & _ & Hprod & _).
    unfold has_description in Hd.
    apply andb_true_iff in Hd. destruct Hd as [_ Hd].
    apply truthy_str_true in Hd.
    rewrite Hprod. split; [exact Hd | apply strip_idem].
  - intros name cfg width row desc parts Hdesc Hparts Hblank p Hrp.
    destruct (row_product_some _ _ _ _ _ Hrp)
      as (code & desc' & price & parts' & _ & Hdesc' & _ & Hparts' & Hd & _).
    rewrite Hdesc in Hdesc'. injection Hdesc' as <-.
    rewrite Hparts in Hparts'. injection Hparts' as <-.
    unfold has_description in Hd.
    apply andb_true_iff in Hd. destruct Hd as [Hd Hs].
    apply andb_true_iff in Hd. destruct Hd as [_ Hn].
    destruct Hblank as [Hb | Hb].
    + congruence.
    + rewrite Hb in Hs. discriminate.
Qed.

Lemma loader_descriptions_not_blank_witness :
  (In ("Akzo", Samples.akzo_loaded)
      (fst (load_catalogs_with catalog_config Samples.dir_no_crown)) /\
   In Samples.blue_matte_emulsion (data Samples.akzo_loaded) /\
   Product Samples.blue_matte_emulsion <> "" /\
   strip (Product Samples.blue_matte_emulsion)
     = Product Samples.blue_matte_emulsion) /\
  (let cfg := akzo_config in
   let row := Samples.row_of 41 [(0%nat, CStr "A7"); (4%nat, CStr "   ");
                                 (40%nat, CFloat Samples.f12_5)] in
   In row (rows Samples.akzo_sheet) /\
   cell_at row (desc_col cfg) = Ok (CStr "   ") /\
   extra_parts row (extra_cols cfg) = Ok [] /\
   strip (str (with_extras (CStr "   ") [])) = "" /\
   forall p, row_product "Akzo" cfg 41 row <> Ok (Some p)).
Proof.
  split.
  - assert (H1 : In ("Akzo", Samples.akzo_loaded)
                    (fst (load_catalogs_with catalog_config Samples.dir_no_crown)))
      by (vm_compute; left; reflexivity).
    assert (H2 : In Samples.blue_matte_emulsion (data Samples.akzo_loaded))
      by (vm_compute; right; left; reflexivity).
    split; [exact H1 | split; [exact H2 |]].
    exact (proj1 loader_descriptions_not_blank catalog_config
             Samples.dir_no_crown "Akzo" Samples.akzo_loaded
             Samples.blue_matte_emulsion H1 H2).
  - cbv zeta.
    split; [vm_compute; do 2 right; left; reflexivity |].
    split; [reflexivity |]. split; [reflexivity |]. split; [reflexivity |].
    apply (proj2 loader_descriptions_not_blank "Akzo"
             akzo_config 41%nat _ (CStr "   ") []);
      [reflexivity | reflexivity | right; reflexivity].
Defined.

(** ** The loop over the vendors *)

Lemma dict_get_set_same {A : Type} (d : list (string * A)) (k : string) (v : A) :
  dict_get (dict_set d k v) k = Some v.
Proof.
  induction d as [|[k' v'] rest IH]; simpl.
  - now rewrite String.eqb_refl.
  - destruct (String.eqb k' k) eqn:E; simpl; now rewrite E.
Qed.

Lemma dict_get_set_other {A : Type} (d : list (string * A)) (k n : string)
    (v : A) :
  n <> k -> dict_get (dict_set d k v) n = dict_get d n.
Proof.
  intro Hn. induction d as [|[k' v'] rest IH]; simpl.
  - destruct (String.eqb k n) eqn:E; [|reflexivity].
    apply String.eqb_eq in E. congruence.
  - destruct (String.eqb k' k) eqn:E; simpl.
    + apply String.eqb_eq in E. subst k'.
      destruct (String.eqb k n) eqn:E'; [|reflexivity].
      apply String.eqb_eq in E'. congruence.
    + now rewrite IH.
Qed.

(** A vendor the loop does not visit keeps the entry it had. *)
Lemma load_loop_get_other (dir : directory)
    (config : list (string * vendor_config)) :
  forall catalogs warnings name,
    ~ In name (map fst config) ->
    dict_get (fst (load_loop config dir catalogs warnings)) name
      = dict_get catalogs name.
Proof.
  induction config as [|[n cfg] rest IH]; simpl; intros catalogs warnings name Hn;
    [reflexivity|].
  assert (Hrest : ~ In name (map fst rest)) by tauto.
  assert (Hne : name <> n) by (intros ->; tauto).
  destruct (load_vendor n cfg (dir (filename cfg))) as [[c|]|e];
    rewrite IH by exact Hrest; [now apply dict_get_set_other | reflexivity..].
Qed.

(** With distinct vendor names, a vendor's entry is decided by its own file
    alone. *)
Lemma load_loop_get (dir : directory) (config : list (string * vendor_config)) :
  NoDup (map fst config) ->
  forall catalogs warnings name cfg,
    In (name, cfg) config ->
    dict_get (fst (load_loop config dir catalogs warnings)) name
      = match load_vendor name cfg (dir (filename cfg)) with
        | Ok (Some c) => Some c
        | _ => dict_get catalogs name
        end.
Proof.
  induction config as [|[n cfg0] rest IH]; simpl; intros Hnd catalogs warnings name cfg Hin;
    [destruct Hin|].
  inversion Hnd as [|? ? Hfresh Hnd']; subst.
  destruct Hin as [Heq | Hin].
  - inversion Heq; subst.
    destruct (load_vendor name cfg (dir (filename cfg))) as [[c|]|e];
      rewrite load_loop_get_other by exact Hfresh;
      [apply dict_get_set_same | reflexivity..].
  - assert (Hne : name <> n).
    { intros ->. apply Hfresh. apply in_map_iff. now exists (n, cfg). }
    destruct (load_vendor n cfg0 (dir (filename cfg0))) as [[c|]|e];
      rewrite (IH Hnd' _ _ _ _ Hin);
      [rewrite dict_get_set_other by exact Hne | ..]; reflexivity.
Qed.

(** The warnings made are those of the vendors whose pass raised. *)
Lemma load_loop_warnings (dir : directory)
    (config : list (string * vendor_config)) :
  forall catalogs warnings n e,
    In (n, e) (snd (load_loop config dir catalogs warnings)) <->
    In (n, e) warnings \/
    exists cfg, In (n, cfg) config /\
                load_vendor n cfg (dir (filename cfg)) = Raise e.
Proof.
  induction config as [|[name cfg] rest IH]; simpl; intros catalogs warnings n e.
  - split; [now left | intros [H | (cfg & [] & _)]; exact H].
  - destruct (load_vendor name cfg (dir (filename cfg))) as [[c|]|e'] eqn:E;
      rewrite IH; split.
    + intros [H | (cfg' & Hin & Hv)]; [now left|].
      right. exists cfg'. split; [now right | exact Hv].
    + intros [H | (cfg' & [Heq | Hin] & Hv)]; [now left | |].
      * inversion Heq; subst. congruence.
      * right. now exists cfg'.
    + intros [H | (cfg' & Hin & Hv)]; [now left|].
      right. exists cfg'. split; [now right | exact Hv].
    + intros [H | (cfg' & [Heq | Hin] & Hv)]; [now left | |].
      * inversion Heq; subst. congruence.
      * right. now exists cfg'.
    + intros [H | (cfg' & Hin & Hv)].
      * apply in_app_or in H. destruct H as [H | [H | []]]; [now left|].
        inversion H; subst. right. exists cfg. split; [now left | exact E].
      * right. exists cfg'. split; [now right | exact Hv].
    + intros [H | (cfg' & [Heq | Hin] & Hv)].
      * left. apply in_or_app. now left.
      * inversion Heq; subst. left. apply in_or_app. right.
        rewrite E in Hv. injection Hv as ->. now left.
      * right. now exists cfg'.
Qed.

(** Two directories that give every vendor the same outcome give the same
    catalogs and the same warnings. *)
Lemma load_loop_ext (dir dir' : directory)
    (config : list (string * vendor_config)) :
  (forall n cfg, In (n, cfg) config ->
     load_vendor n cfg (dir' (filename cfg))
       = load_vendor n cfg (dir (filename cfg))) ->
  forall catalogs warnings,
    load_loop config dir' catalogs warnings
      = load_loop config dir catalogs warnings.
Proof.
  induction config as [|[name cfg] rest IH]; simpl; intros Hsame catalogs warnings;
    [reflexivity|].
  rewrite (Hsame name cfg) by now left.
  destruct (load_vendor name cfg (dir (filename cfg))) as [[c|]|e];
    apply IH; intros n cfg' Hin; apply Hsame; now right.
Qed.

Lemma catalog_config_names_distinct : NoDup (map fst catalog_config).
Proof.
  simpl. repeat constructor; simpl; intuition discriminate.
Qed.

Lemma config_entry_unique (config : list (string * vendor_config))
    (name : string) (cfg cfg' : vendor_config) :
  NoDup (map fst config) ->
  In (name, cfg) config -> In (name, cfg') config -> cfg = cfg'.
Proof.
  induction config as [|[n c] rest IH]; simpl; intros Hnd H H'; [destruct H|].
  inversion Hnd as [|? ? Hfresh Hnd']; subst.
  destruct H as [H | H], H' as [H' | H'].
  - congruence.
  - inversion H; subst. elim Hfresh. apply in_map_iff. now exists (name, cfg').
  - inversion H'; subst. elim Hfresh. apply in_map_iff. now exists (name, cfg).
  - now apply IH.
Qed.

(** C5, as amended. With distinct vendor names: a vendor whose file is
    missing gets no entry and no warning; a vendor whose file fails to parse
    gets no entry and a warning that carries the parser's message; and in
    every case each vendor's entry is what its own file gives, so the other
    vendors' catalogs are returned whatever happened to this one. *)
Theorem loader_skips_failed_vendor (config : list (string * vendor_config))
    (dir : directory) (name : string) (cfg : vendor_config) :
  NoDup (map fst config) -> In (name, cfg) config ->
  (dir (filename cfg) = Missing ->
     dict_get (fst (load_catalogs_with config dir)) name = None /\
     ~ In name (map fst (snd (load_catalogs_with config dir)))) /\
  (forall why, dir (filename cfg) = Unreadable why ->
     dict_get (fst (load_catalogs_with config dir)) name = None /\
     In (name, ReadError why) (snd (load_catalogs_with config dir))) /\
  (forall other cfg', In (other, cfg') config ->
     dict_get (fst (load_catalogs_with config dir)) other
       = entry_of (load_vendor other cfg' (dir (filename cfg')))).
Proof.
  intros Hnd Hin.
  assert (Hget : forall other cfg', In (other, cfg') config ->
            dict_get (fst (load_catalogs_with config dir)) other
              = entry_of (load_vendor other cfg' (dir (filename cfg')))).
  { intros other cfg' Hin'. unfold load_catalogs_with.
    rewrite (load_loop_get dir config Hnd [] [] other cfg' Hin').
    now destruct (load_vendor other cfg' (dir (filename cfg'))) as [[c|]|e]. }
  split; [|split; [|exact Hget]].
  - intro Hmiss. split.
    + rewrite (Hget name cfg Hin), Hmiss. reflexivity.
    + intro Hw. apply in_map_iff in Hw. destruct Hw as ([n e] & Hn & Hw).
      simpl in Hn. subst n.
      apply load_loop_warnings in Hw. destruct Hw as [[] | (cfg' & Hin' & Hv)].
      rewrite (config_entry_unique _ _ _ _ Hnd Hin' Hin), Hmiss in Hv.
      discriminate.
  - intros why Hbad. split.
    + rewrite (Hget name cfg Hin), Hbad. reflexivity.
    + apply load_loop_warnings. right. exists cfg. split; [exact Hin|].
      now rewrite Hbad.
Qed.

Lemma loader_skips_failed_vendor_witness :
  NoDup (map fst catalog_config) /\
  In ("Crown", crown_config) catalog_config /\
  (Samples.dir_bad_crown (filename crown_config) = Missing ->
     dict_get (fst (load_catalogs_with catalog_config Samples.dir_bad_crown))
              "Crown" = None /\
     ~ In "Crown"
          (map fst (snd (load_catalogs_with catalog_config Samples.dir_bad_crown)))) /\
  (forall why, Samples.dir_bad_crown (filename crown_config) = Unreadable why ->
     dict_get (fst (load_catalogs_with catalog_config Samples.dir_bad_crown))
              "Crown" = None /\
     In ("Crown", ReadError why)
        (snd (load_catalogs_with catalog_config Samples.dir_bad_crown))) /\
  (forall other cfg', In (other, cfg') catalog_config ->
     dict_get (fst (load_catalogs_with catalog_config Samples.dir_bad_crown)) other
       = entry_of (load_vendor other cfg' (Samples.dir_bad_crown (filename cfg')))).
Proof.
  assert (H : In ("Crown", crown_config) catalog_config)
    by (right; left; reflexivity).
  split; [exact catalog_config_names_distinct | split; [exact H |]].
  exact (loader_skips_failed_vendor catalog_config Samples.dir_bad_crown
           "Crown" crown_config catalog_config_names_distinct H).
Defined.

(** C5 as first stated fails on a missing file: in [Samples.dir_no_crown]
    there is no Crown file; the loader returns the other two catalogs, no
    entry for Crown, and makes no warning at all. *)
Lemma missing_file_gives_no_warning :
  Samples.dir_no_crown (filename crown_config) = Missing /\
  In ("Crown", crown_config) catalog_config /\
  map fst (fst (load_paint_catalogs Samples.dir_no_crown)) = ["Akzo"; "PPG"] /\
  snd (load_paint_catalogs Samples.dir_no_crown) = [] /\
  page Samples.token_hit_ratio Samples.dir_no_crown "" "All" false = [].
Proof.
  repeat split; try (vm_compute; reflexivity).
  right. left. reflexivity.
Qed.

Lemma load_vendor_no_product (name : string) (cfg : vendor_config)
    (sheets : list (string * frame)) :
  yields_no_product name cfg sheets ->
  load_vendor name cfg (Workbook sheets) = Ok None.
Proof.
  unfold yields_no_product, load_vendor. intro H.
  destruct (select_sheet name cfg sheets) as [[sheet_name df]|]; [|reflexivity].
  destruct (truthy_str sheet_name); [|reflexivity].
  now rewrite (H sheet_name df eq_refl).
Qed.

Lemma load_loop_all_none (dir : directory)
    (config : list (string * vendor_config)) :
  (forall n cfg, In (n, cfg) config ->
     load_vendor n cfg (dir (filename cfg)) = Ok None) ->
  forall catalogs warnings,
    load_loop config dir catalogs warnings = (catalogs, warnings).
Proof.
  induction config as [|[name cfg] rest IH]; simpl; intros Hnone catalogs warnings;
    [reflexivity|].
  rewrite (Hnone name cfg) by now left.
  apply IH. intros n cfg' Hin. apply Hnone. now right.
Qed.

(** C10. With distinct vendor names: a vendor whose workbook is found and
    read but gives no product gets no entry in the returned mapping and no
    warning; the loader returns exactly what it returns when that vendor's
    file is missing instead; and when every vendor is in this case the
    mapping is empty (and no warning is made). *)
Theorem empty_vendor_has_no_entry (config : list (string * vendor_config))
    (dir : directory) (name : string) (cfg : vendor_config)
    (sheets : list (string * frame)) :
  NoDup (map fst config) -> In (name, cfg) config ->
  dir (filename cfg) = Workbook sheets ->
  yields_no_product name cfg sheets ->
  dict_get (fst (load_catalogs_with config dir)) name = None /\
  ~ In name (map fst (snd (load_catalogs_with config dir))) /\
  (forall dir' : directory,
     dir' (filename cfg) = Missing ->
     (forall other cfg', In (other, cfg') config -> other <> name ->
        dir' (filename cfg') = dir (filename cfg')) ->
     load_catalogs_with config dir' = load_catalogs_with config dir) /\
  ((forall other cfg', In (other, cfg') config ->
      exists sheets', dir (filename cfg') = Workbook sheets' /\
                      yields_no_product other cfg' sheets') ->
   load_catalogs_with config dir = ([], [])).
Proof.
  intros Hnd Hin Hdir Hnone.
  assert (Hv : load_vendor name cfg (dir (filename cfg)) = Ok None)
    by (rewrite Hdir; now apply load_vendor_no_product).
  split; [|split; [|split]].
  - unfold load_catalogs_with.
    rewrite (load_loop_get dir config Hnd [] [] name cfg Hin), Hv. reflexivity.
  - intro Hw. apply in_map_iff in Hw. destruct Hw as ([n e] & Hn & Hw).
    simpl in Hn. subst n.
    apply load_loop_warnings in Hw. destruct Hw as [[] | (cfg' & Hin' & Hv')].
    rewrite (config_entry_unique _ _ _ _ Hnd Hin' Hin), Hv in Hv'.
    discriminate.
  - intros dir' Hmiss Hsame. unfold load_catalogs_with.
    apply load_loop_ext. intros n cfg' Hin'.
    destruct (String.eqb n name) eqn:E.
    + apply String.eqb_eq in E. subst n.
      rewrite (config_entry_unique _ _ _ _ Hnd Hin' Hin), Hmiss, Hv.
      reflexivity.
    + apply String.eqb_neq in E. now rewrite (Hsame n cfg' Hin' E).
  - intro Hall. unfold load_catalogs_with. apply load_loop_all_none.
    intros n cfg' Hin'. destruct (Hall n cfg' Hin') as (sheets' & Hd & Hy).
    rewrite Hd. now apply load_vendor_no_product.
Qed.

Lemma empty_vendor_has_no_entry_witness :
  NoDup (map fst catalog_config) /\
  In ("PPG", ppg_config) catalog_config /\
  Samples.dir_blank_ppg (filename ppg_config)
    = Workbook [("Prices", Samples.blank_sheet)] /\
  yields_no_product "PPG" ppg_config [("Prices", Samples.blank_sheet)] /\
  dict_get (fst (load_catalogs_with catalog_config Samples.dir_blank_ppg)) "PPG"
    = None /\
  ~ In "PPG"
       (map fst (snd (load_catalogs_with catalog_config Samples.dir_blank_ppg))) /\
  (forall dir' : directory,
     dir' (filename ppg_config) = Missing ->
     (forall other cfg', In (other, cfg') catalog_config -> other <> "PPG" ->
        dir' (filename cfg') = Samples.dir_blank_ppg (filename cfg')) ->
     load_catalogs_with catalog_config dir'
       = load_catalogs_with catalog_config Samples.dir_blank_ppg) /\
  ((forall other cfg', In (other, cfg') catalog_config ->
      exists sheets', Samples.dir_blank_ppg (filename cfg') = Workbook sheets' /\
                      yields_no_product other cfg' sheets') ->
   load_catalogs_with catalog_config Samples.dir_blank_ppg = ([], [])).
Proof.
  assert (H1 : In ("PPG", ppg_config) catalog_config)
    by (do 2 right; left; reflexivity).
  assert (H2 : Samples.dir_blank_ppg (filename ppg_config)
               = Workbook [("Prices", Samples.blank_sheet)]) by reflexivity.
  assert (H3 : yields_no_product "PPG" ppg_config
                 [("Prices", Samples.blank_sheet)]).
  { intros sheet_name df Hsel. vm_compute in Hsel.
    injection Hsel as <- <-. reflexivity. }
  split; [exact catalog_config_names_distinct |].
  split; [exact H1 |]. split; [exact H2 |]. split; [exact H3 |].
  exact (empty_vendor_has_no_entry catalog_config Samples.dir_blank_ppg "PPG"
           ppg_config [("Prices", Samples.blank_sheet)]
           catalog_config_names_distinct H1 H2 H3).
Defined.

(** ** The search filter *)

Lemma fold_min_ge (l : list Z) :
  forall a b, b <= fold_left Z.min l a <-> b <= a /\ forall x, In x l -> b <= x.
Proof.
  induction l as [|y l IH]; simpl; intros a b.
  - split; [intro H; split; [exact H | intros x []] | now intros [H _]].
  - rewrite IH. split.
    + intros [Hm Hl]. split; [lia|]. intros x [<- | Hx]; [lia | now apply Hl].
    + intros [Ha Hl]. split.
      * assert (b <= y) by (apply Hl; now left). lia.
      * intros x Hx. apply Hl. now right.
Qed.

Lemma fold_min_attained (l : list Z) :
  forall a, fold_left Z.min l a = a \/ In (fold_left Z.min l a) l.
Proof.
  induction l as [|y l IH]; simpl; intro a; [now left|].
  destruct (IH (Z.min a y)) as [H | H]; [|right; now right].
  rewrite H. destruct (Z.min_spec a y) as [[_ ->] | [_ ->]];
    [now left | right; now left].
Qed.

Section SearchFacts.

Variable token_set_ratio : string -> string -> Z.

(** With at least one term, the match score is the least of the per-term
    scores: below each of them, and equal to one of them. *)
Lemma match_score_is_minimum (row : product) (search_terms : list string) :
  search_terms <> [] ->
  (forall term, In term search_terms ->
     match_score token_set_ratio row search_terms
       <= term_score token_set_ratio row term) /\
  (exists term, In term search_terms /\
     match_score token_set_ratio row search_terms
       = term_score token_set_ratio row term).
Proof.
  destruct search_terms as [|t ts]; [now intros []|]. intros _. simpl.
  set (score := term_score token_set_ratio row).
  split.
  - intros term Hin.
    pose proof (proj1 (fold_min_ge (map score ts) (score t)
                         (fold_left Z.min (map score ts) (score t)))
                      (Z.le_refl _)) as [Ha Hl].
    destruct Hin as [<- | Hin]; [exact Ha|].
    apply Hl. now apply in_map.
  - destruct (fold_min_attained (map score ts) (score t)) as [H | H].
    + exists t. split; [now left | exact H].
    + apply in_map_iff in H. destruct H as (term & Hs & Hin).
      exists term. split; [now right | now symmetry].
Qed.

(** A row is kept exactly when there is a term and every term scores at
    least 50 against the row. *)
Lemma keeps_iff (row : product) (search_terms : list string) :
  keeps token_set_ratio search_terms row = true <->
  search_terms <> [] /\
  forall term, In term search_terms ->
               50 <= term_score token_set_ratio row term.
Proof.
  unfold App.keeps, App.match_score. destruct search_terms as [|t ts].
  - simpl. split; [discriminate | now intros [[] _]].
  - rewrite Z.leb_le, fold_min_ge. split.
    + intros [Ha Hl]. split; [discriminate|].
      intros term [<- | Hin]; [exact Ha|]. apply Hl. now apply in_map.
    + intros [_ H]. split; [apply H; now left|].
      intros x Hx. apply in_map_iff in Hx. destruct Hx as (term & <- & Hin).
      apply H. now right.
Qed.

Lemma in_all_results (catalogs : list (string * catalog))
    (search_terms : list string) (row : product) :
  In row (all_results token_set_ratio catalogs search_terms) <->
  (exists name c, In (name, c) catalogs /\ In row (data c)) /\
  keeps token_set_ratio search_terms row = true.
Proof.
  unfold all_results, matching. rewrite in_concat. split.
  - intros (l & Hl & Hrow). apply in_map_iff in Hl.
    destruct Hl as ([name c] & <- & Hc). simpl in Hrow.
    apply filter_In in Hrow. destruct Hrow as [Hrow Hk].
    split; [now exists name, c | exact Hk].
  - intros [(name & c & Hc & Hrow) Hk].
    exists (filter (keeps token_set_ratio search_terms) (data c)). split.
    + apply in_map_iff. now exists (name, c).
    + apply filter_In. now split.
Qed.

End SearchFacts.

(** What the page shows for a non-empty query: the table of the filtered
    matches, or the "no products" warning when nothing matches. *)
Lemma search_block_query (token_set_ratio : string -> string -> Z)
    (catalogs : list (string * catalog)) (query catalog_filter : string)
    (search_button : bool) :
  query <> "" ->
  search_block token_set_ratio catalogs query catalog_filter search_button
  = let results :=
      all_results token_set_ratio catalogs (split (lower query)) in
    if 0 <? len results then
      [st_success ("Found " ++
                   str_int (len (filtered_results catalog_filter results)) ++
                   " product(s) in " ++ catalog_filter);
       st_dataframe (filtered_results catalog_filter results)]
    else
      [st_warning ("No products found matching '" ++ query ++
                   "'. Try different keywords.")].
Proof.
  intro Hq. unfold search_block.
  destruct query as [|c q]; [now elim Hq|]. reflexivity.
Qed.

(** C1, as amended. For every query, with its terms the whitespace-separated
    words of the lowercased query: a row of the loaded catalogs is among the
    search results if and only if the query has at least one term and every
    term scores at least 50 against the row (the better of its scores
    against the lowercased code and the lowercased description); when there
    is a term this is to say that the least of the per-term scores is at
    least 50, so a row that fails one term is excluded whatever its other
    scores; a query with no term (only whitespace) keeps no row; and for a
    non-empty query the page shows these results, filtered by vendor, or
    the "no products" warning when there is none. *)
Theorem search_keeps_rows_matching_every_term
    (token_set_ratio : string -> string -> Z)
    (catalogs : list (string * catalog)) (query : string) (row : product) :
  let search_terms := split (lower query) in
  (In row (all_results token_set_ratio catalogs search_terms) <->
     (exists name c, In (name, c) catalogs /\ In row (data c)) /\
     search_terms <> [] /\
     forall term, In term search_terms ->
                  50 <= term_score token_set_ratio row term) /\
  (search_terms <> [] ->
     (keeps token_set_ratio search_terms row = true <->
        50 <= match_score token_set_ratio row search_terms) /\
     (forall term, In term search_terms ->
        match_score token_set_ratio row search_terms
          <= term_score token_set_ratio row term) /\
     (exists term, In term search_terms /\
        match_score token_set_ratio row search_terms
          = term_score token_set_ratio row term)) /\
  (forall term, In term search_terms ->
     term_score token_set_ratio row term < 50 ->
     ~ In row (all_results token_set_ratio catalogs search_terms)) /\
  (search_terms = [] ->
     all_results token_set_ratio catalogs search_terms = []) /\
  (query <> "" ->
   forall catalog_filter search_button,
     search_block token_set_ratio catalogs query catalog_filter search_button
     = if 0 <? len (all_results token_set_ratio catalogs search_terms) then
         [st_success
            ("Found " ++
             str_int (len (filtered_results catalog_filter
                             (all_results token_set_ratio catalogs
                                          search_terms))) ++
             " product(s) in " ++ catalog_filter);
          st_dataframe
            (filtered_results catalog_filter
               (all_results token_set_ratio catalogs search_terms))]
       else
         [st_warning ("No products found matching '" ++ query ++
                      "'. Try different keywords.")]).
Proof.
  cbv zeta. split; [|split; [|split; [|split]]];
    [| | | |intros Hq catalog_filter search_button;
            exact (search_block_query _ _ _ _ _ Hq)].
  - rewrite in_all_results, keeps_iff. tauto.
  - intro Hne. split; [apply Z.leb_le|].
    now apply match_score_is_minimum.
  - intros term Hin Hlow Hrow.
    apply in_all_results in Hrow. destruct Hrow as [_ Hk].
    apply keeps_iff in Hk. destruct Hk as [_ Hk].
    specialize (Hk term Hin). lia.
  - intros ->. unfold all_results, matching.
    induction catalogs as [|[name c] rest IH]; simpl; [reflexivity|].
    rewrite IH.
    assert (H : filter (keeps token_set_ratio []) (data c) = []).
    { induction (data c) as [|p ps IHp]; simpl; [reflexivity | exact IHp]. }
    now rewrite H.
Qed.

(** C1 as first stated fails on a query that is not empty and has no term:
    for the query " " every row vacuously scores at least 50 against every
    term, and the search keeps no row, whatever the scorer. *)
Lemma whitespace_query_keeps_no_row :
  let search_terms := split (lower " ") in
  " " <> "" /\
  search_terms = [] /\
  In Samples.blue_matte_emulsion (data Samples.akzo_loaded) /\
  (forall token_set_ratio,
     Claimed.keeps_every_term token_set_ratio search_terms
       Samples.blue_matte_emulsion = true /\
     keeps token_set_ratio search_terms Samples.blue_matte_emulsion = false /\
     page token_set_ratio Samples.dir_no_crown " " "All" true
     = [st_warning "No products found matching ' '. Try different keywords."]).
Proof.
  cbv zeta. split; [discriminate|]. split; [reflexivity|].
  split; [vm_compute; right; left; reflexivity|].
  intro token_set_ratio. repeat split.
Qed.

Lemma search_keeps_rows_matching_every_term_witness :
  let catalogs := fst (load_paint_catalogs Samples.dir_no_crown) in
  let search_terms := split (lower "Blue MATTE") in
  search_terms = ["blue"; "matte"] /\
  In Samples.blue_matte_emulsion
     (all_results Samples.token_hit_ratio catalogs search_terms) /\
  50 <= term_score Samples.token_hit_ratio Samples.blue_gloss "blue" /\
  term_score Samples.token_hit_ratio Samples.blue_gloss "matte" < 50 /\
  ~ In Samples.blue_gloss
       (all_results Samples.token_hit_ratio catalogs search_terms).
Proof.
  cbv zeta.
  pose proof (search_keeps_rows_matching_every_term Samples.token_hit_ratio
                (fst (load_paint_catalogs Samples.dir_no_crown)) "Blue MATTE")
    as H.
  split; [reflexivity|]. split; [|split; [|split]].
  - apply (proj1 (H Samples.blue_matte_emulsion)). split; [|split].
    + exists "Akzo", Samples.akzo_loaded.
      split; [vm_compute; left; reflexivity
             | vm_compute; right; left; reflexivity].
    + discriminate.
    + intros term Hin. vm_compute in Hin.
      destruct Hin as [<- | [<- | []]]; vm_compute; discriminate.
  - vm_compute. discriminate.
  - reflexivity.
  - apply (proj1 (proj2 (proj2 (H Samples.blue_gloss))) "matte").
    + vm_compute. right. left. reflexivity.
    + reflexivity.
Defined.

(** ** The vendor filter *)

Lemma filter_unchanged_iff {A : Type} (f : A -> bool) (l : list A) :
  filter f l = l <-> forall x, In x l -> f x = true.
Proof.
  induction l as [|a l IH]; simpl; [now split|].
  destruct (f a) eqn:E; split.
  - intros H x [<- | Hx]; [exact E|]. apply IH; [|exact Hx]. congruence.
  - intro H. f_equal. apply IH. intros x Hx. apply H. now right.
  - intro H. pose proof (filter_length_le f l) as Hlen.
    rewrite H in Hlen. simpl in Hlen. lia.
  - intro H. rewrite (H a) in E by now left. discriminate.
Qed.

Lemma filtered_results_all (results : list product) :
  filtered_results "All" results = results.
Proof. reflexivity. Qed.

Lemma filtered_results_vendor (vendor : string) (results : list product) :
  vendor <> "All" ->
  filtered_results vendor results
  = filter (fun row => String.eqb (Catalog row) vendor) results.
Proof.
  intro H. unfold filtered_results.
  apply String.eqb_neq in H. now rewrite H.
Qed.

(** C6, as amended. For every query and every single vendor selected in the
    catalog filter, the result set holds only rows tagged with that vendor
    and is a subset of the result set of the same query under "All": its
    rows tagged with the vendor, in the same order. It is the whole "All"
    result when every row of that result is tagged with the vendor, and a
    strict subset otherwise. *)
Theorem vendor_filter_subset (token_set_ratio : string -> string -> Z)
    (catalogs : list (string * catalog)) (query vendor : string) :
  vendor <> "All" ->
  let results := all_results token_set_ratio catalogs (split (lower query)) in
  let one := filtered_results vendor results in
  let all := filtered_results "All" results in
  (forall row, In row one -> Catalog row = vendor) /\
  (forall row, In row one <-> In row all /\ Catalog row = vendor) /\
  one = filter (fun row => String.eqb (Catalog row) vendor) all /\
  (List.length one <= List.length all)%nat /\
  (one = all <-> forall row, In row all -> Catalog row = vendor) /\
  ((List.length one < List.length all)%nat <->
   exists row, In row all /\ Catalog row <> vendor).
Proof.
  intro Hv. cbv zeta. rewrite filtered_results_all.
  rewrite (filtered_results_vendor _ _ Hv).
  set (results := all_results token_set_ratio catalogs (split (lower query))).
  set (tagged := fun row : product => String.eqb (Catalog row) vendor).
  assert (Hin : forall row, In row (filter tagged results) <->
                            In row results /\ Catalog row = vendor).
  { intro row. rewrite filter_In. unfold tagged. now rewrite String.eqb_eq. }
  assert (Hsame : filter tagged results = results <->
                  forall row, In row results -> Catalog row = vendor).
  { rewrite filter_unchanged_iff. unfold tagged.
    split; intros H row Hrow; apply String.eqb_eq; now apply H. }
  split; [intros row Hrow; now apply Hin|].
  split; [exact Hin|]. split; [reflexivity|].
  split; [apply filter_length_le|]. split; [exact Hsame|].
  split.
  - intro Hlt.
    destruct (forallb tagged results) eqn:Eall.
    + rewrite forallb_forall in Eall.
      rewrite (proj2 (filter_unchanged_iff tagged results) Eall) in Hlt. lia.
    + assert (Hex : existsb (fun row => negb (tagged row)) results = true).
      { clear -Eall. induction results as [|a l IH]; simpl in *;
          [discriminate|].
        destruct (tagged a); simpl in *; [now apply IH | reflexivity]. }
      apply existsb_exists in Hex. destruct Hex as (row & Hrow & Hneg).
      exists row. split; [exact Hrow|].
      unfold tagged in Hneg. apply negb_true_iff, String.eqb_neq in Hneg.
      exact Hneg.
  - intros (row & Hrow & Hneq).
    pose proof (filter_length_le tagged results) as Hle.
    destruct (Nat.eq_dec (List.length (filter tagged results))
                         (List.length results)) as [Heq | Hne]; [|lia].
    exfalso. apply Hneq.
    assert (Hall : filter tagged results = results).
    { clear -Heq. induction results as [|a l IH]; simpl in *; [reflexivity|].
      destruct (tagged a); simpl in *.
      - f_equal. apply IH. lia.
      - pose proof (filter_length_le tagged l). lia. }
    now apply (proj1 Hsame Hall).
Qed.

Lemma vendor_filter_subset_witness :
  "PPG" <> "All" /\
  let results :=
    all_results Samples.token_hit_ratio
      (fst (load_paint_catalogs Samples.dir_no_crown)) (split (lower "matte")) in
  let one := filtered_results "PPG" results in
  let all := filtered_results "All" results in
  (forall row, In row one -> Catalog row = "PPG") /\
  (forall row, In row one <-> In row all /\ Catalog row = "PPG") /\
  one = filter (fun row => String.eqb (Catalog row) "PPG") all /\
  (List.length one <= List.length all)%nat /\
  (one = all <-> forall row, In row all -> Catalog row = "PPG") /\
  ((List.length one < List.length all)%nat <->
   exists row, In row all /\ Catalog row <> "PPG").
Proof.
  assert (H : "PPG" <> "All") by discriminate.
  split; [exact H|].
  exact (vendor_filter_subset Samples.token_hit_ratio
           (fst (load_paint_catalogs Samples.dir_no_crown)) "matte" "PPG" H).
Defined.

Lemma single_catalog_results_tagged (token_set_ratio : string -> string -> Z)
    (name : string) (c : catalog) (search_terms : list string) :
  (forall row, In row (data c) -> Catalog row = name) ->
  filtered_results name
    (all_results token_set_ratio [(name, c)] search_terms)
  = all_results token_set_ratio [(name, c)] search_terms \/ name = "All".
Proof.
  intro Htag. destruct (String.eqb name "All") eqn:E;
    [right; now apply String.eqb_eq|left].
  unfold filtered_results. rewrite E.
  apply filter_unchanged_iff. intros row Hrow.
  apply String.eqb_eq. apply Htag.
  apply in_all_results in Hrow.
  destruct Hrow as [(n & c' & [Heq | []] & Hin) _].
  now inversion Heq; subst.
Qed.

(** C6 as first stated fails when every match is the selected vendor's: with
    only the Akzo catalog loaded ([Samples.dir_akzo_only]) the results under
    "Akzo" are the results under "All", for every query and scorer; for the
    query "blue" both are the same two rows. *)
Lemma single_vendor_filter_not_strict :
  let catalogs := fst (load_paint_catalogs Samples.dir_akzo_only) in
  catalogs = [("Akzo", Samples.akzo_loaded)] /\
  (forall token_set_ratio query,
     filtered_results "Akzo"
       (all_results token_set_ratio catalogs (split (lower query)))
     = filtered_results "All"
         (all_results token_set_ratio catalogs (split (lower query)))) /\
  filtered_results "Akzo"
    (all_results Samples.token_hit_ratio catalogs (split (lower "blue")))
  = [Samples.blue_matte_emulsion; Samples.blue_gloss] /\
  filtered_results "All"
    (all_results Samples.token_hit_ratio catalogs (split (lower "blue")))
  = [Samples.blue_matte_emulsion; Samples.blue_gloss] /\
  page Samples.token_hit_ratio Samples.dir_akzo_only "blue" "Akzo" true
  = [st_success "Found 2 product(s) in Akzo";
     st_dataframe [Samples.blue_matte_emulsion; Samples.blue_gloss]] /\
  page Samples.token_hit_ratio Samples.dir_akzo_only "blue" "All" true
  = [st_success "Found 2 product(s) in All";
     st_dataframe [Samples.blue_matte_emulsion; Samples.blue_gloss]].
Proof.
  cbv zeta.
  assert (Hc : fst (load_paint_catalogs Samples.dir_akzo_only)
               = [("Akzo", Samples.akzo_loaded)]) by (vm_compute; reflexivity).
  split; [exact Hc|]. split; [|repeat split; vm_compute; reflexivity].
  intros token_set_ratio query. rewrite Hc, filtered_results_all.
  destruct (single_catalog_results_tagged token_set_ratio "Akzo"
              Samples.akzo_loaded (split (lower query))) as [H | H];
    [|exact H | discriminate].
  intros row Hrow. vm_compute in Hrow.
  repeat (destruct Hrow as [<- | Hrow]; [reflexivity|]). destruct Hrow.
Qed.

(** ** Reading the columns of a row *)

Lemma iloc_in_range (row : list cell) (i : Z) :
  0 <= i < len row -> iloc row i = Ok (nth (Z.to_nat i) row CNone).
Proof.
  unfold iloc, len. intros [Hlo Hhi].
  destruct (i <? 0) eqn:E; [apply Z.ltb_lt in E; lia|]. rewrite E.
  destruct (nth_error row (Z.to_nat i)) as [v|] eqn:En.
  - now rewrite (nth_error_nth _ _ CNone En).
  - apply nth_error_None in En. lia.
Qed.

(** A column index that is not negative is read without an exception: the
    cell when the index is inside the row, [None] otherwise. *)
Lemma cell_at_guarded (row : list cell) (col : Z) :
  0 <= col ->
  cell_at row col
  = Ok (if col <? len row then nth (Z.to_nat col) row CNone else CNone).
Proof.
  intro H. unfold cell_at. destruct (col <? len row) eqn:E; [|reflexivity].
  apply Z.ltb_lt in E. now apply iloc_in_range.
Qed.

Lemma extra_parts_total (row : list cell) (cols : list Z) :
  Forall (fun col => 0 <= col) cols ->
  exists parts, extra_parts row cols = Ok parts.
Proof.
  induction 1 as [|col rest Hcol _ IH]; simpl; [now exists []|].
  destruct IH as [parts IH].
  destruct (col <? len row) eqn:E; [|now exists parts].
  apply Z.ltb_lt in E. rewrite iloc_in_range by lia. simpl. rewrite IH. simpl.
  eexists. reflexivity.
Qed.

Lemma float_of_str_raises (s : string) (e : exn) :
  float_of_str s = Raise e -> e = ValueError.
Proof.
  unfold float_of_str.
  repeat match goal with
         | |- context [match ?x with _ => _ end] => destruct x
         end; congruence.
Qed.

Lemma to_float_raises (v : cell) (e : exn) :
  to_float v = Raise e -> e = TypeError \/ e = OverflowError \/ e = ValueError.
Proof.
  destruct v as [| x | n | b | s | shown]; simpl; intro H.
  - left. congruence.
  - discriminate.
  - unfold float_of_int in H. right. left.
    destruct (to_binary64 n 0); congruence.
  - discriminate.
  - right. right. now apply float_of_str_raises in H.
  - left. congruence.
Qed.

(** The price formatting lets one exception through: the [OverflowError] of
    an integer too large for a float. *)
Lemma format_price_raises (price : cell) (e : exn) :
  format_price price = Raise e -> e = OverflowError.
Proof.
  unfold format_price.
  destruct (notna price && differs_from_NA price)%bool; [|discriminate].
  destruct (to_float price) as [x|e'] eqn:E; [discriminate|].
  destruct (to_float_raises _ _ E) as [-> | [-> | ->]]; congruence.
Qed.

Lemma sheet_products_raises (name : string) (cfg : vendor_config)
    (width : nat) (rows : list (list cell)) (e : exn) :
  sheet_products name cfg width rows = Raise e ->
  exists row, In row rows /\ row_product name cfg width row = Raise e.
Proof.
  induction rows as [|row rest IH]; simpl; [discriminate|].
  destruct (row_product name cfg width row) as [p|e'] eqn:E; simpl.
  - destruct (sheet_products name cfg width rest) as [ps|e'']; simpl;
      [discriminate|].
    intro H. injection H as ->.
    destruct (IH eq_refl) as (r & Hr & Hp). exists r. split; [now right|exact Hp].
  - intro H. injection H as ->. exists row. split; [now left | exact E].
Qed.

(** The reads of one row: the price index is clamped into the row, the code
    and description indices are guarded, and nothing raises [IndexError]. *)
Lemma row_reads_stay_in_row (name : string) (cfg : vendor_config)
    (width : nat) (row : list cell) :
  List.length row = width -> (0 < width)%nat ->
  0 <= code_col cfg -> 0 <= desc_col cfg -> 0 <= price_col cfg ->
  Forall (fun col => 0 <= col) (extra_cols cfg) ->
  0 <= clamped_price_col cfg width < len row /\
  cell_at row (clamped_price_col cfg width)
    = Ok (nth (Z.to_nat (clamped_price_col cfg width)) row CNone) /\
  cell_at row (code_col cfg)
    = Ok (if code_col cfg <? len row
          then nth (Z.to_nat (code_col cfg)) row CNone else CNone) /\
  cell_at row (desc_col cfg)
    = Ok (if desc_col cfg <? len row
          then nth (Z.to_nat (desc_col cfg)) row CNone else CNone) /\
  (exists parts, extra_parts row (extra_cols cfg) = Ok parts) /\
  row_product name cfg width row <> Raise IndexError.
Proof.
  intros Hlen Hwidth Hcode Hdesc Hprice Hextra.
  assert (Hclamp : 0 <= clamped_price_col cfg width < len row)
    by (unfold clamped_price_col, len; lia).
  assert (Hp : cell_at row (clamped_price_col cfg width)
               = Ok (nth (Z.to_nat (clamped_price_col cfg width)) row CNone)).
  { rewrite cell_at_guarded by lia.
    destruct (clamped_price_col cfg width <? len row) eqn:E; [reflexivity|].
    apply Z.ltb_ge in E. lia. }
  destruct (extra_parts_total row (extra_cols cfg) Hextra) as [parts Hparts].
  split; [exact Hclamp|]. split; [exact Hp|].
  split; [now apply cell_at_guarded|]. split; [now apply cell_at_guarded|].
  split; [now exists parts|].
  unfold row_product.
  rewrite (cell_at_guarded row (code_col cfg) Hcode),
          (cell_at_guarded row (desc_col cfg) Hdesc), Hp, Hparts.
  simpl.
  destruct (has_description _); [|discriminate].
  destruct (format_price _) as [shown|e] eqn:E; simpl; [discriminate|].
  apply format_price_raises in E. subst e. discriminate.
Qed.

(** C7, as amended. For every vendor configuration with non-negative column
    indices and every sheet with at least one column (and rows as wide as
    the sheet): the price index is clamped to the sheet's last column before
    the cell is read; the code and description indices are not clamped but
    guarded, an index at or past the row's width giving a missing value
    ([None]); the extra description columns are guarded the same way; and no
    read indexes past the end of a row: neither a row's pass nor the pass
    over the sheet raises [IndexError]. *)
Theorem column_reads_stay_in_row (name : string) (cfg : vendor_config)
    (df : frame) :
  rectangular df -> (0 < ncols df)%nat ->
  0 <= code_col cfg -> 0 <= desc_col cfg -> 0 <= price_col cfg ->
  Forall (fun col => 0 <= col) (extra_cols cfg) ->
  clamped_price_col cfg (ncols df)
    = Z.min (price_col cfg) (Z.of_nat (ncols df) - 1) /\
  0 <= clamped_price_col cfg (ncols df) < Z.of_nat (ncols df) /\
  (forall row, In row (rows df) ->
     cell_at row (clamped_price_col cfg (ncols df))
       = Ok (nth (Z.to_nat (clamped_price_col cfg (ncols df))) row CNone) /\
     cell_at row (code_col cfg)
       = Ok (if code_col cfg <? Z.of_nat (ncols df)
             then nth (Z.to_nat (code_col cfg)) row CNone else CNone) /\
     cell_at row (desc_col cfg)
       = Ok (if desc_col cfg <? Z.of_nat (ncols df)
             then nth (Z.to_nat (desc_col cfg)) row CNone else CNone) /\
     (exists parts, extra_parts row (extra_cols cfg) = Ok parts) /\
     row_product name cfg (ncols df) row <> Raise IndexError) /\
  sheet_products name cfg (ncols df) (rows df) <> Raise IndexError.
Proof.
  intros Hrect Hwidth Hcode Hdesc Hprice Hextra.
  unfold rectangular in Hrect. rewrite Forall_forall in Hrect.
  split; [reflexivity|]. split; [unfold clamped_price_col; lia|].
  split.
  - intros row Hrow. specialize (Hrect row Hrow).
    destruct (row_reads_stay_in_row name cfg (ncols df) row
                Hrect Hwidth Hcode Hdesc Hprice Hextra)
      as (_ & Hp & Hc & Hd & He & Hsafe).
    unfold len in Hc, Hd. rewrite Hrect in Hc, Hd. auto.
  - intro Hraise. apply sheet_products_raises in Hraise.
    destruct Hraise as (row & Hrow & Hrp). specialize (Hrect row Hrow).
    now apply (row_reads_stay_in_row name cfg (ncols df) row
                 Hrect Hwidth Hcode Hdesc Hprice Hextra).
Qed.

Lemma column_reads_stay_in_row_witness :
  rectangular Samples.crown_sheet /\
  clamped_price_col crown_config (ncols Samples.crown_sheet) = 7 /\
  (forall row, In row (rows Samples.crown_sheet) ->
     cell_at row (clamped_price_col crown_config (ncols Samples.crown_sheet))
       = Ok (nth 7 row CNone) /\
     cell_at row (code_col crown_config) = Ok (nth 0 row CNone) /\
     cell_at row (desc_col crown_config) = Ok (nth 4 row CNone)) /\
  sheet_products "Crown" crown_config (ncols Samples.crown_sheet)
    (rows Samples.crown_sheet) <> Raise IndexError.
Proof.
  assert (Hrect : rectangular Samples.crown_sheet)
    by (unfold rectangular; simpl; repeat constructor).
  destruct (column_reads_stay_in_row "Crown" crown_config Samples.crown_sheet)
    as (Hclamp & _ & Hrows & Hsafe).
  - exact Hrect.
  - simpl. lia.
  - simpl. lia.
  - simpl. lia.
  - simpl. lia.
  - simpl. repeat constructor; lia.
  - split; [exact Hrect|]. split; [exact Hclamp|]. split; [|exact Hsafe].
    intros row Hrow. destruct (Hrows row Hrow) as (Hp & Hc & Hd & _).
    split; [exact Hp|]. split; [exact Hc | exact Hd].
Defined.

(** C7 as first stated fails for the description index: the second sheet of
    the Crown workbook of [Samples.dir_crown_narrow] has three columns, the
    configured description index is 4; clamped to the width it would read
    the third cell, "Blue Matt"; the loader reads [None], drops the row and
    returns no Crown catalog. *)
Lemma description_index_not_clamped :
  let row := Samples.row_of 3 [(0%nat, CStr "C1"); (1%nat, CStr "x");
                               (2%nat, CStr "Blue Matt")] in
  Samples.dir_crown_narrow (filename crown_config)
    = Workbook [("Cover", Samples.crown_sheet);
                ("Prices", Samples.narrow_sheet)] /\
  select_sheet "Crown" crown_config
    [("Cover", Samples.crown_sheet); ("Prices", Samples.narrow_sheet)]
    = Some ("Prices", Samples.narrow_sheet) /\
  rows Samples.narrow_sheet = [row] /\
  Claimed.clamped_cell_at row 3 (desc_col crown_config)
    = Ok (CStr "Blue Matt") /\
  cell_at row (desc_col crown_config) = Ok CNone /\
  row_product "Crown" crown_config 3 row = Ok None /\
  load_paint_catalogs Samples.dir_crown_narrow = ([], []).
Proof.
  cbv zeta. repeat split; vm_compute; reflexivity.
Qed.

(** ** Sheet selection *)

(** [find] returns the first element that passes the test. *)
Lemma find_first {A : Type} (f : A -> bool) (l : list A) (x : A) :
  find f l = Some x ->
  exists before after,
    l = (before ++ x :: after)%list /\ f x = true /\
    forall y, In y before -> f y = false.
Proof.
  induction l as [|a l IH]; simpl; [discriminate|].
  destruct (f a) eqn:E.
  - intro H. injection H as <-. exists [], l. repeat split; auto.
    intros y [].
  - intro H. destruct (IH H) as (before & after & -> & Hx & Hb).
    exists (a :: before), after. repeat split; auto.
    intros y [<- | Hy]; [exact E | now apply Hb].
Qed.

Lemma find_none_iff {A : Type} (f : A -> bool) (l : list A) :
  find f l = None <-> forall y, In y l -> f y = false.
Proof.
  induction l as [|a l IH]; simpl; [now split|].
  destruct (f a) eqn:E; split.
  - discriminate.
  - intro H. rewrite (H a) in E by now left. discriminate.
  - intros H y [<- | Hy]; [exact E | now apply IH].
  - intro H. apply IH. intros y Hy. apply H. now right.
Qed.

(** A row with no cell at the description index and none at the extra
    columns yields no product. *)
Lemma short_row_no_product (name : string) (cfg : vendor_config) (width : nat)
    (row : list cell) :
  len row <= desc_col cfg ->
  Forall (fun col => len row <= col) (extra_cols cfg) ->
  forall p, row_product name cfg width row <> Ok (Some p).
Proof.
  intros Hshort Hextra p Hrp.
  destruct (row_product_some _ _ _ _ _ Hrp)
    as (code & desc & price & parts & _ & Hdesc & _ & Hparts & Hd & _).
  unfold cell_at in Hdesc.
  destruct (desc_col cfg <? len row) eqn:E; [apply Z.ltb_lt in E; lia|].
  injection Hdesc as <-.
  assert (Hnone : extra_parts row (extra_cols cfg) = Ok []).
  { clear -Hextra. induction Hextra as [|col rest Hcol _ IH]; simpl;
      [reflexivity|].
    destruct (col <? len row) eqn:E'; [apply Z.ltb_lt in E'; lia | exact IH]. }
  rewrite Hnone in Hparts. injection Hparts as <-.
  discriminate.
Qed.

(** C8, as amended. The Crown vendor is loaded from the second sheet of its
    workbook when the workbook has more than one sheet; a Crown workbook of
    one sheet, and every other vendor, is loaded from the first sheet whose
    column count strictly exceeds the configured description index; the
    vendor's products are those of the selected sheet (sheet names are not
    empty); and for the three configured vendors a workbook of rectangular
    sheets none of which is wide enough yields no catalog. *)
Theorem sheet_selection (name : string) (cfg : vendor_config)
    (sheets : list (string * frame)) :
  (name = "Crown" -> (1 < List.length sheets)%nat ->
     select_sheet name cfg sheets = nth_error sheets 1) /\
  (name <> "Crown" \/ (List.length sheets <= 1)%nat ->
     select_sheet name cfg sheets = find (wide_enough cfg) sheets /\
     (forall s, select_sheet name cfg sheets = Some s ->
        exists before after,
          sheets = (before ++ s :: after)%list /\
          desc_col cfg < Z.of_nat (ncols (snd s)) /\
          forall s', In s' before ->
                     Z.of_nat (ncols (snd s')) <= desc_col cfg) /\
     ((forall s, In s sheets -> Z.of_nat (ncols (snd s)) <= desc_col cfg) ->
        select_sheet name cfg sheets = None /\
        load_vendor name cfg (Workbook sheets) = Ok None)) /\
  (forall sheet_name df,
     select_sheet name cfg sheets = Some (sheet_name, df) ->
     sheet_name <> "" ->
     load_vendor name cfg (Workbook sheets)
     = bind (sheet_products name cfg (ncols df) (rows df))
            (fun products =>
               Ok (match products with
                   | [] => None
                   | _ => Some {| data := products; sheet := sheet_name |}
                   end))) /\
  (In (name, cfg) catalog_config ->
   (forall s, In s sheets -> rectangular (snd s)) ->
   (forall s, In s sheets -> Z.of_nat (ncols (snd s)) <= desc_col cfg) ->
   forall c, load_vendor name cfg (Workbook sheets) <> Ok (Some c)).
Proof.
  split; [|split; [|split]].
  - intros -> Hlen. unfold select_sheet, len.
    replace (1 <? Z.of_nat (List.length sheets)) with true
      by (symmetry; apply Z.ltb_lt; lia).
    reflexivity.
  - intro Hother.
    assert (Hsel : select_sheet name cfg sheets = find (wide_enough cfg) sheets).
    { unfold select_sheet, len. destruct Hother as [Hn | Hlen].
      - apply String.eqb_neq in Hn. now rewrite Hn.
      - replace (1 <? Z.of_nat (List.length sheets)) with false
          by (symmetry; apply Z.ltb_ge; lia).
        now rewrite andb_false_r. }
    split; [exact Hsel|]. split.
    + intros s Hs. rewrite Hsel in Hs.
      destruct (find_first _ _ _ Hs) as (before & after & Hl & Hw & Hb).
      exists before, after. split; [exact Hl|]. split.
      * unfold wide_enough in Hw. now apply Z.ltb_lt in Hw.
      * intros s' Hs'. specialize (Hb s' Hs').
        unfold wide_enough in Hb. now apply Z.ltb_ge in Hb.
    + intro Hnarrow.
      assert (Hnone : select_sheet name cfg sheets = None).
      { rewrite Hsel. apply find_none_iff. intros s Hs.
        unfold wide_enough. apply Z.ltb_ge. now apply Hnarrow. }
      split; [exact Hnone|]. simpl. now rewrite Hnone.
  - intros sheet_name df Hsel Hname. simpl. rewrite Hsel.
    apply truthy_str_true in Hname. now rewrite Hname.
  - intros Hcfg Hrect Hnarrow c Hload.
    apply load_vendor_some in Hload.
    destruct Hload as (sheets' & df & Hw & Hsel & _ & Hps & Hdata).
    injection Hw as <-.
    assert (Hdf : In (sheet c, df) sheets).
    { unfold select_sheet in Hsel.
      destruct (String.eqb name "Crown" && (1 <? len sheets))%bool.
      - now apply nth_error_In in Hsel.
      - now apply find_some in Hsel. }
    destruct (data c) as [|p ps] eqn:Ed; [now elim Hdata|].
    destruct (sheet_products_in _ _ _ _ _ p Hps (or_introl eq_refl))
      as (row & Hrow & Hrp).
    pose proof (Hrect _ Hdf) as Hr. unfold rectangular in Hr. simpl in Hr.
    rewrite Forall_forall in Hr. specialize (Hr row Hrow).
    pose proof (Hnarrow _ Hdf) as Hn. simpl in Hn.
    revert Hrp. apply short_row_no_product.
    + unfold len. lia.
    + assert (Hd : desc_col cfg = 4 /\
                   Forall (fun col => 4 <= col) (extra_cols cfg)).
      { destruct Hcfg as [H | [H | [H | []]]]; inversion H; subst; simpl;
          split; try reflexivity; repeat constructor; lia. }
      destruct Hd as [Hd4 Hex]. rewrite Hd4 in Hn.
      eapply Forall_impl; [|exact Hex].
      intros col Hcol. simpl in Hcol. unfold len. lia.
Qed.

Lemma sheet_selection_witness :
  select_sheet "Crown" crown_config
    [("Cover", Samples.crown_sheet); ("Prices", Samples.narrow_sheet)]
  = Some ("Prices", Samples.narrow_sheet) /\
  select_sheet "PPG" ppg_config
    [("Notes", Samples.narrow_sheet); ("Prices", Samples.ppg_sheet)]
  = Some ("Prices", Samples.ppg_sheet) /\
  (exists before after,
     [("Notes", Samples.narrow_sheet); ("Prices", Samples.ppg_sheet)]
     = (before ++ ("Prices", Samples.ppg_sheet) :: after)%list /\
     desc_col ppg_config < Z.of_nat (ncols Samples.ppg_sheet) /\
     forall s', In s' before ->
                Z.of_nat (ncols (snd s')) <= desc_col ppg_config) /\
  load_vendor "PPG" ppg_config (Workbook [("Notes", Samples.narrow_sheet)])
  = Ok None.
Proof.
  split; [|split; [|split]].
  - exact (proj1 (sheet_selection "Crown" crown_config
                    [("Cover", Samples.crown_sheet);
                     ("Prices", Samples.narrow_sheet)])
                 eq_refl (Nat.lt_succ_diag_r 1)).
  - vm_compute. reflexivity.
  - refine (proj1 (proj2 (proj1 (proj2 (sheet_selection "PPG" ppg_config
                    [("Notes", Samples.narrow_sheet);
                     ("Prices", Samples.ppg_sheet)]))
                 (or_introl _)))
              ("Prices", Samples.ppg_sheet) _);
      [discriminate | vm_compute; reflexivity].
  - refine (proj2 (proj2 (proj2 (proj1 (proj2 (sheet_selection "PPG" ppg_config
                    [("Notes", Samples.narrow_sheet)]))
                 (or_introl _))) _));
      [discriminate | intros s [<- | []]; simpl; lia].
Defined.

(** C8 as first stated fails for a Crown workbook of one sheet: there is no
    second sheet, and the loader takes the first sheet wide enough, here the
    only one, and returns a Crown catalog made from it. *)
Lemma crown_single_sheet_is_loaded :
  Samples.dir_crown_one_sheet (filename crown_config)
    = Workbook [("Prices", Samples.crown_sheet)] /\
  Claimed.select_sheet "Crown" crown_config [("Prices", Samples.crown_sheet)]
    = None /\
  select_sheet "Crown" crown_config [("Prices", Samples.crown_sheet)]
    = Some ("Prices", Samples.crown_sheet) /\
  map (fun kv => (fst kv, sheet (snd kv), map Product (data (snd kv))))
      (fst (load_paint_catalogs Samples.dir_crown_one_sheet))
    = [("Crown", "Prices", ["Crown Trade Matt 5L"; "nan Vinyl"])].
Proof.
  repeat split; vm_compute; reflexivity.
Qed.

(** ** The empty query *)

(** C9. When the search is shown (some catalog was loaded) and the button is
    pressed with an empty query, nothing is searched: below the loader's
    warnings the page shows the one prompt "Enter a search term to find
    products", an [st.info], and neither an error nor a table, whatever the
    catalogs, the filter and the scorer. *)
Theorem empty_query_prompts (token_set_ratio : string -> string -> Z)
    (dir : directory) (catalog_filter : string) :
  fst (load_paint_catalogs dir) <> [] ->
  search_block token_set_ratio (fst (load_paint_catalogs dir)) ""
               catalog_filter true
    = [st_info "Enter a search term to find products"] /\
  page token_set_ratio dir "" catalog_filter true
    = (map (fun w => st_warning (warning_text (fst w) (snd w)))
           (snd (load_paint_catalogs dir))
       ++ [st_info "Enter a search term to find products"])%list /\
  (forall call, In call (page token_set_ratio dir "" catalog_filter true) ->
     (exists msg, call = st_warning msg) \/
     call = st_info "Enter a search term to find products").
Proof.
  intro Hloaded.
  assert (Hpage : page token_set_ratio dir "" catalog_filter true
    = (map (fun w => st_warning (warning_text (fst w) (snd w)))
           (snd (load_paint_catalogs dir))
       ++ [st_info "Enter a search term to find products"])%list).
  { unfold page. destruct (load_paint_catalogs dir) as [catalogs warnings].
    simpl in *. destruct catalogs; [now elim Hloaded | reflexivity]. }
  split; [reflexivity|]. split; [exact Hpage|].
  intros call Hin. rewrite Hpage in Hin. apply in_app_or in Hin.
  destruct Hin as [Hin | [<- | []]]; [left | now right].
  apply in_map_iff in Hin. destruct Hin as (w & <- & _). now eexists.
Qed.

Lemma empty_query_prompts_witness :
  fst (load_paint_catalogs Samples.dir_bad_crown) <> [] /\
  page Samples.token_hit_ratio Samples.dir_bad_crown "" "All" true
  = [st_warning "Could not load Crown catalog: File is not a zip file";
     st_info "Enter a search term to find products"].
Proof.
  assert (H : fst (load_paint_catalogs Samples.dir_bad_crown) <> [])
    by (vm_compute; discriminate).
  split; [exact H|].
  exact (proj1 (proj2 (empty_query_prompts Samples.token_hit_ratio
                         Samples.dir_bad_crown "All" H))).
Defined.

(** * Further properties of the loader *)

Lemma dict_set_fresh {A : Type} (d : list (string * A)) (k : string) (v : A) :
  ~ In k (map fst d) -> dict_set d k v = (d ++ [(k, v)])%list.
Proof.
  induction d as [|[k' v'] rest IH]; simpl; intro Hk; [reflexivity|].
  destruct (String.eqb k' k) eqn:E.
  - apply String.eqb_eq in E. subst. tauto.
  - rewrite IH by tauto. reflexivity.
Qed.

(** The loop appends to [catalogs] the catalogs made and to the warnings the
    exceptions caught, vendor by vendor. *)
Lemma load_loop_appends (dir : directory)
    (config : list (string * vendor_config)) :
  forall catalogs warnings,
    NoDup (map fst config) ->
    (forall n, In n (map fst config) -> ~ In n (map fst catalogs)) ->
    load_loop config dir catalogs warnings
    = ((catalogs ++
        flat_map (fun kv =>
                    match entry_of (load_vendor (fst kv) (snd kv)
                                      (dir (filename (snd kv)))) with
                    | Some c => [(fst kv, c)]
                    | None => []
                    end) config)%list,
       (warnings ++
        flat_map (fun kv =>
                    match load_vendor (fst kv) (snd kv)
                            (dir (filename (snd kv))) with
                    | Raise e => [(fst kv, e)]
                    | Ok _ => []
                    end) config)%list).
Proof.
  induction config as [|[name cfg] rest IH]; simpl; intros catalogs warnings Hnd Hfresh.
  - now rewrite !app_nil_r.
  - inversion Hnd as [|? ? Hname Hnd']; subst.
    destruct (load_vendor name cfg (dir (filename cfg))) as [[c|]|e]; simpl.
    + rewrite dict_set_fresh by (apply Hfresh; now left).
      rewrite IH; [now rewrite <- !app_assoc | exact Hnd' |].
      intros n Hn Hin. rewrite map_app in Hin. apply in_app_or in Hin.
      destruct Hin as [Hin | [<- | []]]; [|exact (Hname Hn)].
      apply (Hfresh n); [now right | exact Hin].
    + apply IH; [exact Hnd'|]. intros n Hn. apply Hfresh. now right.
    + rewrite IH; [now rewrite <- !app_assoc | exact Hnd' |].
      intros n Hn. apply Hfresh. now right.
Qed.

(** X1. With distinct vendor names, the loader returns the catalogs in the
    order of the configuration (Akzo, Crown, PPG), one for each vendor whose
    pass made a catalog and none for the others, and makes its warnings in
    the same order, one for each vendor whose pass raised. *)
Theorem loader_keeps_config_order (config : list (string * vendor_config))
    (dir : directory) :
  NoDup (map fst config) ->
  load_catalogs_with config dir
  = (flat_map (fun kv =>
                 match entry_of (load_vendor (fst kv) (snd kv)
                                   (dir (filename (snd kv)))) with
                 | Some c => [(fst kv, c)]
                 | None => []
                 end) config,
     flat_map (fun kv =>
                 match load_vendor (fst kv) (snd kv)
                         (dir (filename (snd kv))) with
                 | Raise e => [(fst kv, e)]
                 | Ok _ => []
                 end) config).
Proof.
  intro Hnd. unfold load_catalogs_with.
  rewrite load_loop_appends; [reflexivity | exact Hnd | intros n _ []].
Qed.

Lemma loader_keeps_config_order_witness :
  NoDup (map fst catalog_config) /\
  map fst (fst (load_catalogs_with catalog_config Samples.dir_bad_crown))
    = ["Akzo"; "PPG"] /\
  snd (load_catalogs_with catalog_config Samples.dir_bad_crown)
    = [("Crown", ReadError "File is not a zip file")].
Proof.
  split; [exact catalog_config_names_distinct|].
  rewrite (loader_keeps_config_order catalog_config Samples.dir_bad_crown
             catalog_config_names_distinct).
  split; vm_compute; reflexivity.
Defined.

(** X2. Every catalog the loader returns belongs to a configured vendor
    whose file is a workbook, has at least one product, and records the
    non-empty name of the sheet selected in that workbook, which is one of
    its sheets. *)
Theorem loaded_catalog_is_filled (config : list (string * vendor_config))
    (dir : directory) (name : string) (c : catalog) :
  In (name, c) (fst (load_catalogs_with config dir)) ->
  data c <> [] /\ sheet c <> "" /\
  exists cfg sheets df,
    In (name, cfg) config /\
    dir (filename cfg) = Workbook sheets /\
    select_sheet name cfg sheets = Some (sheet c, df) /\
    In (sheet c, df) sheets /\
    sheet_products name cfg (ncols df) (rows df) = Ok (data c).
Proof.
  intro Hc. unfold load_catalogs_with in Hc.
  apply load_loop_in in Hc. destruct Hc as [[] | (cfg & Hcfg & Hv)].
  apply load_vendor_some in Hv.
  destruct Hv as (sheets & df & Hf & Hs & Hname & Hps & Hdata).
  split; [exact Hdata|]. split; [exact Hname|].
  exists cfg, sheets, df. repeat split; auto.
  unfold select_sheet in Hs.
  destruct (String.eqb name "Crown" && (1 <? len sheets))%bool.
  - now apply nth_error_In in Hs.
  - now apply find_some in Hs.
Qed.

Lemma loaded_catalog_is_filled_witness :
  In ("Akzo", Samples.akzo_loaded)
     (fst (load_catalogs_with catalog_config Samples.dir_no_crown)) /\
  data Samples.akzo_loaded <> [] /\ sheet Samples.akzo_loaded = "Sheet1".
Proof.
  assert (H : In ("Akzo", Samples.akzo_loaded)
                 (fst (load_catalogs_with catalog_config Samples.dir_no_crown)))
    by (vm_compute; left; reflexivity).
  split; [exact H|].
  split; [|vm_compute; reflexivity].
  exact (proj1 (loaded_catalog_is_filled catalog_config Samples.dir_no_crown
                  "Akzo" Samples.akzo_loaded H)).
Defined.



(** X4. The pass over a sheet keeps the order of its rows: when no row
    raises, the products are those of the rows that yield one, in sheet
    order, so there are at most as many products as rows. *)
Theorem sheet_products_in_row_order (name : string) (cfg : vendor_config)
    (width : nat) (rows : list (list cell)) (products : list product) :
  sheet_products name cfg width rows = Ok products ->
  products
  = flat_map (fun row =>
                match row_product name cfg width row with
                | Ok (Some p) => [p]
                | _ => []
                end) rows /\
  (List.length products <= List.length rows)%nat /\
  (forall row, In row rows -> exists made,
     row_product name cfg width row = Ok made).
Proof.
  revert products.
  induction rows as [|row rest IH]; simpl; intros products H.
  - injection H as <-. repeat split; auto. intros row [].
  - bind_inv H. bind_inv H. injection H as <-.
    destruct (IH _ Ha0) as (Heq & Hlen & Hok). rewrite Ha.
    split; [|split].
    + destruct a; simpl; now rewrite <- Heq.
    + destruct a; simpl; lia.
    + intros r [<- | Hr]; [now exists a | now apply Hok].
Qed.

Lemma sheet_products_in_row_order_witness :
  sheet_products "Akzo" akzo_config 41 (rows Samples.akzo_sheet)
    = Ok (data Samples.akzo_loaded) /\
  map Product (data Samples.akzo_loaded)
    = ["Description"; "Blue Matte Emulsion"; "Blue Gloss"; "White Primer"] /\
  (List.length (data Samples.akzo_loaded)
     <= List.length (rows Samples.akzo_sheet))%nat.
Proof.
  assert (H : sheet_products "Akzo" akzo_config 41 (rows Samples.akzo_sheet)
              = Ok (data Samples.akzo_loaded)) by (vm_compute; reflexivity).
  split; [exact H|]. split; [vm_compute; reflexivity|].
  exact (proj1 (proj2 (sheet_products_in_row_order "Akzo" akzo_config 41
                         (rows Samples.akzo_sheet)
                         (data Samples.akzo_loaded) H))).
Defined.

(** ** Descriptions and the extra columns *)

Lemma app_nonempty_r (s t : string) : t <> "" -> s ++ t <> "".
Proof.
  destruct s; simpl; [auto | discriminate].
Qed.

(** Nothing is stripped off the right of a text that ends with a text
    [rstrip] leaves alone. *)
Lemma rstrip_app_kept (s t : string) :
  t <> "" -> rstrip t = t -> rstrip (s ++ t) = s ++ t.
Proof.
  intros Ht Hr. induction s as [|c s IH]; simpl; [exact Hr|].
  rewrite IH. pose proof (app_nonempty_r s t Ht) as Hne.
  destruct (s ++ t); [now elim Hne | reflexivity].
Qed.

Lemma strip_fixed_parts (s : string) :
  s <> "" -> strip s = s ->
  rstrip s = s /\ exists c r, s = String c r /\ isspace c = false.
Proof.
  intros Hne Hs. split.
  - rewrite <- Hs at 1. unfold strip. rewrite rstrip_idem. exact Hs.
  - destruct (strip_head s) as [E | (c & r & E & Hc)].
    + rewrite Hs in E. now elim Hne.
    + rewrite Hs in E. now exists c, r.
Qed.

(** Every part collected from the extra columns is a non-empty stripped
    text. *)
Lemma extra_parts_stripped (row : list cell) (cols : list Z) :
  forall parts,
    extra_parts row cols = Ok parts ->
    Forall (fun part => part <> "" /\ strip part = part) parts.
Proof.
  induction cols as [|col rest IH]; simpl; intros parts H.
  - injection H as <-. constructor.
  - destruct (col <? len row); [|now apply IH].
    bind_inv H. bind_inv H. injection H as <-.
    destruct (notna a && truthy_str (strip (str a)))%bool eqn:E;
      [|now apply IH].
    constructor; [|now apply IH].
    apply andb_true_iff in E. destruct E as [_ E].
    split; [now apply truthy_str_true | apply strip_idem].
Qed.

(** Nothing is stripped off a text that starts with a character that is
    not whitespace and ends with a text [rstrip] leaves alone. *)
Lemma strip_app_kept (c : ascii) (r t : string) :
  isspace c = false -> t <> "" -> rstrip t = t ->
  strip (String c r ++ t) = String c r ++ t.
Proof.
  intros Hc Ht Hr. unfold strip.
  assert (Hl : lstrip (String c r ++ t) = String c r ++ t)
    by (simpl; now rewrite Hc).
  rewrite Hl. now apply rstrip_app_kept.
Qed.

(** The extra parts joined by single spaces are left alone by [strip]. *)
Lemma join_stripped (parts : list string) :
  parts <> [] ->
  Forall (fun part => part <> "" /\ strip part = part) parts ->
  join " " parts <> "" /\ strip (join " " parts) = join " " parts.
Proof.
  intros Hne Hall. induction Hall as [|p rest [Hp Hs] Hrest IH];
    [now elim Hne|].
  destruct rest as [|q rest']; [simpl; now split|].
  destruct IH as [IHne IHs]; [discriminate|].
  change (join " " (p :: q :: rest'))
    with (p ++ " " ++ join " " (q :: rest')).
  set (tail := join " " (q :: rest')) in *.
  destruct (strip_fixed_parts p Hp Hs) as [_ (c & r & -> & Hc)].
  destruct (strip_fixed_parts tail IHne IHs) as [Hr _].
  split; [discriminate|].
  apply strip_app_kept; [exact Hc | discriminate |].
  now apply (rstrip_app_kept " " tail).
Qed.

Lemma lstrip_app (a t : string) :
  lstrip (a ++ t)
  = match lstrip a with
    | EmptyString => lstrip t
    | kept => kept ++ t
    end.
Proof.
  induction a as [|c a IH]; simpl; [reflexivity|].
  destruct (isspace c); [exact IH | reflexivity].
Qed.

(** A text followed by a space and the joined extra parts loses nothing on
    the right when stripped, and is not blank. *)
Lemma described_text (a : string) (parts : list string) :
  parts <> [] ->
  Forall (fun part => part <> "" /\ strip part = part) parts ->
  strip (a ++ " " ++ join " " parts) = lstrip (a ++ " " ++ join " " parts) /\
  lstrip (a ++ " " ++ join " " parts) <> "".
Proof.
  intros Hne Hall.
  destruct (join_stripped parts Hne Hall) as [Hj Hs].
  destruct (strip_fixed_parts _ Hj Hs) as [Hr (c & r & Hcr & Hc)].
  assert (Hsp : rstrip (" " ++ join " " parts) = " " ++ join " " parts)
    by now apply (rstrip_app_kept " ").
  assert (Hl : lstrip (" " ++ join " " parts) = join " " parts).
  { change (lstrip (" " ++ join " " parts)) with (lstrip (join " " parts)).
    rewrite Hcr. simpl. now rewrite Hc. }
  unfold strip. rewrite lstrip_app.
  destruct (lstrip a) as [|c' a'] eqn:Ea.
  - rewrite Hl. split; [exact Hr | exact Hj].
  - split; [|discriminate].
    apply rstrip_app_kept; [discriminate | exact Hsp].
Qed.

(** X5. A description cell that Python takes for false ([None], 0, 0.0,
    [False], the empty text) makes the loader drop the row when no extra
    part is appended, even when its text is not blank, as "0" is. *)
Theorem falsy_description_is_dropped (name : string) (cfg : vendor_config)
    (width : nat) (row : list cell) (desc : cell) :
  cell_at row (desc_col cfg) = Ok desc ->
  extra_parts row (extra_cols cfg) = Ok [] ->
  truthy desc = false ->
  forall p, row_product name cfg width row <> Ok (Some p).
Proof.
  intros Hdesc Hparts Hfalse p Hrp.
  destruct (row_product_some _ _ _ _ _ Hrp)
    as (code & desc' & price & parts' & _ & Hdesc' & _ & Hparts' & Hd & _).
  rewrite Hdesc in Hdesc'. injection Hdesc' as <-.
  rewrite Hparts in Hparts'. injection Hparts' as <-.
  unfold has_description in Hd. simpl in Hd. rewrite Hfalse in Hd.
  discriminate.
Qed.

Lemma falsy_description_is_dropped_witness :
  let row := Samples.row_of 16 [(0%nat, CStr "P7"); (4%nat, CInt 0);
                                (15%nat, CFloat Samples.f12_5)] in
  cell_at row (desc_col ppg_config) = Ok (CInt 0) /\
  strip (str (CInt 0)) = "0" /\
  row_product "PPG" ppg_config 16 row = Ok None.
Proof.
  cbv zeta. split; [reflexivity|]. split; [reflexivity|].
  pose proof (falsy_description_is_dropped "PPG" ppg_config 16
                (Samples.row_of 16 [(0%nat, CStr "P7"); (4%nat, CInt 0);
                                    (15%nat, CFloat Samples.f12_5)])
                (CInt 0) eq_refl eq_refl eq_refl) as H.
  destruct (row_product "PPG" ppg_config 16
              (Samples.row_of 16 [(0%nat, CStr "P7"); (4%nat, CInt 0);
                                  (15%nat, CFloat Samples.f12_5)]))
    as [[p|]|e] eqn:E.
  - now elim (H p).
  - reflexivity.
  - vm_compute in E. discriminate.
Defined.

(** X6. A row with at least one non-blank extra cell is never dropped for
    its description: the product's description is the description cell's
    text, a space and the extra parts joined by single spaces, stripped on
    the left only (nothing is lost on the right); the extra parts alone
    when the description cell is false for Python; and "nan" followed by
    the extra parts when the description cell is empty (NaN). *)
Theorem extras_are_appended (name : string) (cfg : vendor_config)
    (width : nat) (row : list cell) (desc : cell) (parts : list string) :
  cell_at row (desc_col cfg) = Ok desc ->
  extra_parts row (extra_cols cfg) = Ok parts ->
  parts <> [] ->
  row_product name cfg width row <> Ok None /\
  forall p, row_product name cfg width row = Ok (Some p) ->
    (truthy desc = true ->
       Product p = lstrip (str desc ++ " " ++ join " " parts)) /\
    (truthy desc = false -> Product p = join " " parts) /\
    (desc = NaN -> Product p = "nan " ++ join " " parts).
Proof.
  intros Hdesc Hparts Hne.
  pose proof (extra_parts_stripped _ _ _ Hparts) as Hall.
  destruct (join_stripped parts Hne Hall) as [Hj Hs].
  assert (Hwith : with_extras desc parts
                  = CStr (if truthy desc
                          then str desc ++ " " ++ join " " parts
                          else join " " parts))
    by (destruct parts; [now elim Hne | reflexivity]).
  destruct (described_text (str desc) parts Hne Hall) as [Hstrip Hblank].
  assert (Htext : strip (str (with_extras desc parts))
                  = if truthy desc
                    then lstrip (str desc ++ " " ++ join " " parts)
                    else join " " parts).
  { rewrite Hwith. cbn [str]. destruct (truthy desc); [exact Hstrip | exact Hs]. }
  assert (Hkept : has_description (with_extras desc parts) = true).
  { unfold has_description. rewrite Htext. rewrite Hwith. cbn [truthy notna].
    rewrite andb_true_r. apply andb_true_iff.
    destruct (truthy desc); split; apply truthy_str_true; auto.
    apply app_nonempty_r. discriminate. }
  split.
  - unfold row_product. rewrite Hdesc, Hparts.
    destruct (cell_at row (code_col cfg)); simpl; [|discriminate].
    destruct (cell_at row (clamped_price_col cfg width)); simpl;
      [|discriminate].
    rewrite Hkept. destruct (format_price a0); simpl; discriminate.
  - intros p Hrp.
    destruct (row_product_some _ _ _ _ _ Hrp)
      as (code & desc' & price & parts' & _ & Hdesc' & _ & Hparts' & _ & _
          & Hprod & _).
    rewrite Hdesc in Hdesc'. injection Hdesc' as <-.
    rewrite Hparts in Hparts'. injection Hparts' as <-.
    rewrite Hprod, Htext. split; [|split].
    + now intros ->.
    + now intros ->.
    + intros ->. simpl truthy. cbv iota.
      change (str NaN) with "nan". rewrite lstrip_app. reflexivity.
Qed.

Lemma extras_are_appended_witness :
  let vinyl := Samples.row_of 8 [(0%nat, CStr "C2"); (6%nat, CStr "Vinyl")] in
  let trade := Samples.row_of 8 [(0%nat, CStr "C1"); (4%nat, CStr "Crown Trade");
                                 (6%nat, CStr " Matt "); (7%nat, CStr "5L")] in
  cell_at vinyl (desc_col crown_config) = Ok NaN /\
  extra_parts vinyl (extra_cols crown_config) = Ok ["Vinyl"] /\
  (forall p, row_product "Crown" crown_config 8 vinyl = Ok (Some p) ->
             Product p = "nan Vinyl") /\
  extra_parts trade (extra_cols crown_config) = Ok ["Matt"; "5L"] /\
  (forall p, row_product "Crown" crown_config 8 trade = Ok (Some p) ->
             Product p = "Crown Trade Matt 5L").
Proof.
  cbv zeta.
  set (vinyl := Samples.row_of 8 [(0%nat, CStr "C2"); (6%nat, CStr "Vinyl")]).
  set (trade := Samples.row_of 8 [(0%nat, CStr "C1");
                                  (4%nat, CStr "Crown Trade");
                                  (6%nat, CStr " Matt "); (7%nat, CStr "5L")]).
  assert (Hv1 : cell_at vinyl (desc_col crown_config) = Ok NaN)
    by reflexivity.
  assert (Hv2 : extra_parts vinyl (extra_cols crown_config) = Ok ["Vinyl"])
    by reflexivity.
  assert (Ht1 : cell_at trade (desc_col crown_config) = Ok (CStr "Crown Trade"))
    by reflexivity.
  assert (Ht2 : extra_parts trade (extra_cols crown_config) = Ok ["Matt"; "5L"])
    by reflexivity.
  split; [exact Hv1|]. split; [exact Hv2|]. split; [|split; [exact Ht2|]].
  - intros p Hp.
    exact (proj2 (proj2 (proj2 (extras_are_appended "Crown" crown_config 8
                                  vinyl NaN ["Vinyl"] Hv1 Hv2
                                  ltac:(discriminate)) p Hp)) eq_refl).
  - intros p Hp.
    exact (proj1 (proj2 (extras_are_appended "Crown" crown_config 8
                           trade (CStr "Crown Trade") ["Matt"; "5L"]
                           Ht1 Ht2 ltac:(discriminate)) p Hp)
                 eq_refl).
Defined.

(** * Further properties of the search *)

(** ** The terms of a query *)

Lemma lower_char_idem (c : ascii) : lower_char (lower_char c) = lower_char c.
Proof.
  destruct c as [[] [] [] [] [] [] [] []]; reflexivity.
Qed.

Lemma isspace_lower_char (c : ascii) : isspace (lower_char c) = isspace c.
Proof.
  destruct c as [[] [] [] [] [] [] [] []]; reflexivity.
Qed.

Lemma lower_idem (s : string) : lower (lower s) = lower s.
Proof.
  induction s as [|c s IH]; simpl; [reflexivity|].
  now rewrite lower_char_idem, IH.
Qed.

Lemma lower_app (a b : string) : lower (a ++ b) = lower a ++ lower b.
Proof.
  induction a as [|c a IH]; simpl; [reflexivity | now rewrite IH].
Qed.

Lemma chars_app (a b : string) :
  list_ascii_of_string (a ++ b)
  = (list_ascii_of_string a ++ list_ascii_of_string b)%list.
Proof.
  induction a as [|c a IH]; simpl; [reflexivity | now rewrite IH].
Qed.

Lemma chars_lower (s : string) (c : ascii) :
  In c (list_ascii_of_string (lower s)) -> lower_char c = c.
Proof.
  induction s as [|a s IH]; simpl; [intros [] |].
  intros [<- | H]; [apply lower_char_idem | now apply IH].
Qed.

Lemma lower_fixed (s : string) :
  (forall c, In c (list_ascii_of_string s) -> lower_char c = c) ->
  lower s = s.
Proof.
  induction s as [|a s IH]; simpl; intro H; [reflexivity|].
  rewrite (H a) by now left. f_equal. apply IH. intros c Hc. apply H.
  now right.
Qed.

(** The words [split] returns are not empty and made of characters of the
    text that are not whitespace. *)
Lemma split_from_words (P : ascii -> Prop) (s : string) :
  forall word,
    (forall c, In c (list_ascii_of_string word) -> isspace c = false /\ P c) ->
    (forall c, In c (list_ascii_of_string s) -> P c) ->
    forall t, In t (split_from word s) ->
      t <> "" /\
      forall c, In c (list_ascii_of_string t) -> isspace c = false /\ P c.
Proof.
  induction s as [|a s IH]; simpl; intros word Hword Hs t Ht.
  - destruct (truthy_str word) eqn:E; [|destruct Ht].
    destruct Ht as [<- | []]. split; [now apply truthy_str_true | exact Hword].
  - destruct (isspace a) eqn:Ea.
    + apply in_app_or in Ht. destruct Ht as [Ht | Ht].
      * destruct (truthy_str word) eqn:E; [|destruct Ht].
        destruct Ht as [<- | []].
        split; [now apply truthy_str_true | exact Hword].
      * apply (IH ""); [intros c [] | | exact Ht].
        intros c Hc. apply Hs. now right.
    + apply (IH (word ++ String a "")); [| | exact Ht].
      * intros c Hc. rewrite chars_app in Hc. apply in_app_or in Hc.
        destruct Hc as [Hc | [<- | []]]; [now apply Hword|].
        split; [exact Ea | apply Hs; now left].
      * intros c Hc. apply Hs. now right.
Qed.

Lemma split_from_nil (s : string) :
  forall word,
    split_from word s = [] <->
    word = "" /\ forall c, In c (list_ascii_of_string s) -> isspace c = true.
Proof.
  induction s as [|a s IH]; simpl; intro word.
  - destruct word; simpl; split; try discriminate.
    + intros _. split; [reflexivity | intros c []].
    + reflexivity.
    + now intros [H _].
  - destruct (isspace a) eqn:Ea.
    + destruct word; simpl.
      * rewrite IH. split.
        -- intros [_ H]. split; [reflexivity|].
           intros c [<- | Hc]; [exact Ea | now apply H].
        -- intros [_ H]. split; [reflexivity|]. intros c Hc. apply H.
           now right.
      * split; [discriminate | now intros [H _]].
    + rewrite IH. split.
      * intros [H _]. destruct word; discriminate.
      * intros [_ H]. rewrite (H a) in Ea by now left. discriminate.
Qed.

(** X8. Every term of a query is a non-empty word with no whitespace and no
    upper-case letter (lowercasing it changes nothing); and a query has no
    term at all exactly when every one of its characters is whitespace. *)
Theorem search_terms_shape (query : string) :
  (forall term, In term (split (lower query)) ->
     term <> "" /\
     (forall c, In c (list_ascii_of_string term) -> isspace c = false) /\
     lower term = term) /\
  (split (lower query) = [] <->
   forall c, In c (list_ascii_of_string query) -> isspace c = true).
Proof.
  split.
  - intros term Hin.
    destruct (split_from_words (fun c => lower_char c = c) (lower query) ""
                ltac:(intros c []) (chars_lower query) term Hin) as [Hne Hc].
    split; [exact Hne|]. split.
    + intros c H. now apply Hc.
    + apply lower_fixed. intros c H. now apply Hc.
  - unfold split. rewrite split_from_nil. split.
    + intros [_ H] c Hc. rewrite <- isspace_lower_char. apply H.
      clear -Hc. induction query as [|a q IH]; simpl in *; [destruct Hc|].
      destruct Hc as [<- | Hc]; [now left | right; now apply IH].
    + intro H. split; [reflexivity|]. intros c Hc.
      clear -H Hc. induction query as [|a q IH]; simpl in *; [destruct Hc|].
      destruct Hc as [<- | Hc].
      * rewrite isspace_lower_char. apply H. now left.
      * apply IH; [|exact Hc]. intros c' Hc'. apply H. now right.
Qed.

Lemma search_terms_shape_witness :
  split (lower "  Blue  MATTE ") = ["blue"; "matte"] /\
  lower "matte" = "matte" /\
  split (lower (String "009" " ")) = [].
Proof.
  split; [reflexivity|]. split.
  - exact (proj2 (proj2 (proj1 (search_terms_shape "  Blue  MATTE ") "matte"
                           ltac:(right; left; reflexivity)))).
  - apply (proj2 (search_terms_shape (String "009" " "))).
    intros c [<- | [<- | []]]; reflexivity.
Defined.

(** ** What the results depend on *)

Section SearchLaws.

Variable token_set_ratio : string -> string -> Z.

Lemma keeps_same_terms (row : product) (terms terms' : list string) :
  (forall t, In t terms <-> In t terms') ->
  keeps token_set_ratio terms row = keeps token_set_ratio terms' row.
Proof.
  intro Hsame.
  assert (Hiff : keeps token_set_ratio terms row = true <->
                 keeps token_set_ratio terms' row = true).
  { rewrite !keeps_iff. split; intros [Hne H]; split.
    - destruct terms as [|t ts]; [now elim Hne|].
      intro E. rewrite E in Hsame. apply (proj1 (Hsame t)). now left.
    - intros t Ht. apply H. now apply Hsame.
    - destruct terms' as [|t ts]; [now elim Hne|].
      intro E. rewrite E in Hsame. apply (proj2 (Hsame t)). now left.
    - intros t Ht. apply H. now apply Hsame. }
  destruct (keeps token_set_ratio terms row),
           (keeps token_set_ratio terms' row); try reflexivity.
  - symmetry. now apply Hiff.
  - now apply Hiff.
Qed.

Lemma all_results_ext (catalogs : list (string * catalog))
    (terms terms' : list string) :
  (forall row, keeps token_set_ratio terms row
               = keeps token_set_ratio terms' row) ->
  all_results token_set_ratio catalogs terms
  = all_results token_set_ratio catalogs terms'.
Proof.
  intro H. unfold all_results, matching. f_equal.
  apply map_ext. intros [name c]. simpl. now apply filter_ext.
Qed.

(** X9. The search ignores the order of the query's terms and their
    repetition: two lists of terms with the same members give the same
    results, in the same order. *)
Theorem search_ignores_term_order (catalogs : list (string * catalog))
    (terms terms' : list string) :
  (forall t, In t terms <-> In t terms') ->
  all_results token_set_ratio catalogs terms
  = all_results token_set_ratio catalogs terms'.
Proof.
  intro Hsame. apply all_results_ext. intro row. now apply keeps_same_terms.
Qed.

Lemma split_from_app_space (a b : string) :
  forall word,
    split_from word (a ++ String " " b)
    = (split_from word a ++ split b)%list.
Proof.
  induction a as [|c a IH]; simpl; intro word.
  - reflexivity.
  - destruct (isspace c); [|apply IH].
    rewrite IH. now rewrite app_assoc.
Qed.

(** X10. Adding words to a query that has a term never adds a row. The
    terms of a query followed by a space and more text are its own terms
    followed by those of the added text; and every row kept for a list of
    terms is kept for any non-empty list of terms taken from it, so the
    results of the longer query are among those of the shorter one. *)
Theorem more_terms_fewer_rows (catalogs : list (string * catalog))
    (query more : string) (terms terms' : list string) (row : product) :
  split (lower query) <> [] -> terms <> [] ->
  (forall t, In t terms -> In t terms') ->
  split (lower (query ++ " " ++ more))
    = (split (lower query) ++ split (lower more))%list /\
  (In row (all_results token_set_ratio catalogs
             (split (lower (query ++ " " ++ more)))) ->
   In row (all_results token_set_ratio catalogs (split (lower query)))) /\
  (In row (all_results token_set_ratio catalogs terms') ->
   In row (all_results token_set_ratio catalogs terms)).
Proof.
  intros Hq Hne Hincl.
  assert (Hfewer : forall short long,
            short <> [] -> (forall t, In t short -> In t long) ->
            In row (all_results token_set_ratio catalogs long) ->
            In row (all_results token_set_ratio catalogs short)).
  { intros short long Hs Hi. rewrite !in_all_results, !keeps_iff.
    intros [Hrow [_ H]]. split; [exact Hrow|]. split; [exact Hs|].
    intros t Ht. apply H. now apply Hi. }
  assert (Hsplit : split (lower (query ++ " " ++ more))
                   = (split (lower query) ++ split (lower more))%list).
  { rewrite lower_app. change (lower (" " ++ more)) with (String " " (lower more)).
    apply split_from_app_space. }
  split; [exact Hsplit|]. split.
  - rewrite Hsplit. apply Hfewer; [exact Hq|].
    intros t Ht. apply in_or_app. now left.
  - now apply Hfewer.
Qed.

Lemma filter_concat {A : Type} (f : A -> bool) (ls : list (list A)) :
  filter f (List.concat ls) = List.concat (map (filter f) ls).
Proof.
  induction ls as [|l ls IH]; simpl; [reflexivity|].
  now rewrite filter_app, IH.
Qed.

(** X11. The results are not ranked: they are the rows of the loaded
    catalogs, catalog after catalog in the order of [catalogs] and row
    after row in the order of each catalog, with the rows that are not kept
    left out. *)
Theorem results_keep_load_order (catalogs : list (string * catalog))
    (terms : list string) :
  all_results token_set_ratio catalogs terms
  = filter (keeps token_set_ratio terms)
           (List.concat (map (fun kv => data (snd kv)) catalogs)).
Proof.
  unfold all_results, matching. rewrite filter_concat, map_map. reflexivity.
Qed.

End SearchLaws.

Lemma search_ignores_term_order_witness :
  (forall t, In t (split (lower "blue matte")) <->
             In t (split (lower "Matte  BLUE blue"))) /\
  all_results Samples.token_hit_ratio
    (fst (load_paint_catalogs Samples.dir_no_crown))
    (split (lower "blue matte"))
  = all_results Samples.token_hit_ratio
      (fst (load_paint_catalogs Samples.dir_no_crown))
      (split (lower "Matte  BLUE blue")).
Proof.
  assert (H : forall t, In t (split (lower "blue matte")) <->
                        In t (split (lower "Matte  BLUE blue"))).
  { intro t. vm_compute. tauto. }
  split; [exact H|].
  exact (search_ignores_term_order Samples.token_hit_ratio
           (fst (load_paint_catalogs Samples.dir_no_crown)) _ _ H).
Defined.

Lemma more_terms_fewer_rows_witness :
  split (lower "Matte") <> [] /\
  split (lower ("Matte" ++ " " ++ "blue")) = ["matte"; "blue"] /\
  (In Samples.blue_matte_emulsion
      (all_results Samples.token_hit_ratio
         (fst (load_paint_catalogs Samples.dir_no_crown))
         (split (lower ("Matte" ++ " " ++ "blue")))) ->
   In Samples.blue_matte_emulsion
      (all_results Samples.token_hit_ratio
         (fst (load_paint_catalogs Samples.dir_no_crown))
         (split (lower "Matte")))).
Proof.
  assert (H : split (lower "Matte") <> []) by discriminate.
  destruct (more_terms_fewer_rows Samples.token_hit_ratio
              (fst (load_paint_catalogs Samples.dir_no_crown))
              "Matte" "blue" ["matte"] ["matte"; "blue"]
              Samples.blue_matte_emulsion H ltac:(discriminate)
              ltac:(intros t [<- | []]; left; reflexivity))
    as (Hsplit & Hquery & _).
  split; [exact H|]. split; [exact Hsplit | exact Hquery].
Defined.

(** Two characters that are the same, or the two cases of one ASCII
    letter. *)
Definition same_letter (c c' : ascii) : Prop :=
  c = c' \/
  ((65 <= N_of_ascii c <= 90)%N /\ N_of_ascii c' = (N_of_ascii c + 32)%N) \/
  ((65 <= N_of_ascii c' <= 90)%N /\ N_of_ascii c = (N_of_ascii c' + 32)%N).

(** Two texts that differ at most in the case of their ASCII letters. *)
Definition same_but_case (a b : string) : Prop :=
  Forall2 same_letter (list_ascii_of_string a) (list_ascii_of_string b).

Lemma lower_char_of_upper (c c' : ascii) :
  (65 <= N_of_ascii c <= 90)%N -> N_of_ascii c' = (N_of_ascii c + 32)%N ->
  lower_char c = c' /\ lower_char c' = c'.
Proof.
  intros Hc Hc'. unfold lower_char. rewrite Hc'.
  replace ((65 <=? N_of_ascii c) && (N_of_ascii c <=? 90))%N with true
    by (symmetry; apply andb_true_iff; split; apply N.leb_le; lia).
  replace ((65 <=? N_of_ascii c + 32) && (N_of_ascii c + 32 <=? 90))%N
    with false
    by (symmetry; apply andb_false_iff; right; apply N.leb_gt; lia).
  split; [|reflexivity]. rewrite <- Hc'. apply ascii_N_embedding.
Qed.

Lemma same_letter_lower (c c' : ascii) :
  same_letter c c' -> lower_char c = lower_char c'.
Proof.
  intros [-> | [[Hc Hc'] | [Hc Hc']]]; [reflexivity | |].
  - destruct (lower_char_of_upper c c' Hc Hc') as [-> ->]. reflexivity.
  - destruct (lower_char_of_upper c' c Hc Hc') as [-> ->]. reflexivity.
Qed.

Lemma same_but_case_lower (a b : string) :
  same_but_case a b -> lower a = lower b.
Proof.
  unfold same_but_case. revert b.
  induction a as [|c a IH]; intros [|c' b] H; simpl in *; inversion H; subst;
    [reflexivity|].
  f_equal; [now apply same_letter_lower | now apply IH].
Qed.

(** X12. The search folds case on both sides: two queries that differ only
    in the case of their ASCII letters give the same results, and two rows
    whose codes and descriptions differ only in the case of their ASCII
    letters get the same match score, so they are kept or dropped
    together. *)
Theorem search_ignores_case (token_set_ratio : string -> string -> Z)
    (catalogs : list (string * catalog)) :
  (forall query query',
     same_but_case query query' ->
     all_results token_set_ratio catalogs (split (lower query'))
       = all_results token_set_ratio catalogs (split (lower query))) /\
  (forall row row' terms,
     same_but_case (str (Code row)) (str (Code row')) ->
     same_but_case (Product row) (Product row') ->
     match_score token_set_ratio row terms
       = match_score token_set_ratio row' terms /\
     keeps token_set_ratio terms row = keeps token_set_ratio terms row').
Proof.
  split.
  - intros query query' H. now rewrite (same_but_case_lower _ _ H).
  - intros row row' terms Hcode Hdesc.
    apply same_but_case_lower in Hcode, Hdesc.
    assert (Hscore : forall term, term_score token_set_ratio row term
                                  = term_score token_set_ratio row' term)
      by (intro term; unfold term_score; now rewrite Hcode, Hdesc).
    assert (Hm : match_score token_set_ratio row terms
                 = match_score token_set_ratio row' terms).
    { unfold match_score. destruct terms as [|t ts]; [reflexivity|].
      rewrite Hscore. f_equal. apply map_ext. exact Hscore. }
    split; [exact Hm|]. unfold keeps. now rewrite Hm.
Qed.

Lemma search_ignores_case_witness :
  same_but_case "Blue MATTE" "bLUE matte" /\
  all_results Samples.token_hit_ratio
    (fst (load_paint_catalogs Samples.dir_no_crown))
    (split (lower "bLUE matte"))
  = all_results Samples.token_hit_ratio
      (fst (load_paint_catalogs Samples.dir_no_crown))
      (split (lower "Blue MATTE")).
Proof.
  assert (H : same_but_case "Blue MATTE" "bLUE matte").
  { unfold same_but_case. simpl.
    repeat (apply Forall2_cons;
            [ first [ left; reflexivity
                    | right; left;
                      split; [split; apply N.leb_le; reflexivity
                             | reflexivity]
                    | right; right;
                      split; [split; apply N.leb_le; reflexivity
                             | reflexivity] ] | ]).
    apply Forall2_nil. }
  split; [exact H|].
  exact (proj1 (search_ignores_case Samples.token_hit_ratio
                  (fst (load_paint_catalogs Samples.dir_no_crown)))
               "Blue MATTE" "bLUE matte" H).
Defined.

(** ** The vendor filter and the page *)

Lemma dict_get_absent {A : Type} (d : list (string * A)) (k : string) :
  ~ In k (map fst d) -> dict_get d k = None.
Proof.
  induction d as [|[k' v] rest IH]; simpl; intro H; [reflexivity|].
  destruct (String.eqb k' k) eqn:E.
  - apply String.eqb_eq in E. subst. tauto.
  - apply IH. tauto.
Qed.

Lemma filter_none {A : Type} (f : A -> bool) (l : list A) :
  (forall x, In x l -> f x = false) -> filter f l = [].
Proof.
  induction l as [|a l IH]; simpl; intro H; [reflexivity|].
  rewrite (H a) by now left. apply IH. intros x Hx. apply H. now right.
Qed.

(** With every row tagged by its catalog's name and the names distinct,
    the rows of one vendor among the results are the matches of that
    vendor's catalog. *)
Lemma vendor_rows_of_results (token_set_ratio : string -> string -> Z)
    (catalogs : list (string * catalog)) (terms : list string)
    (vendor : string) :
  NoDup (map fst catalogs) ->
  (forall n c p, In (n, c) catalogs -> In p (data c) -> Catalog p = n) ->
  filter (fun row => String.eqb (Catalog row) vendor)
         (all_results token_set_ratio catalogs terms)
  = match dict_get catalogs vendor with
    | Some c => matching token_set_ratio terms c
    | None => []
    end.
Proof.
  induction catalogs as [|[n c] rest IH]; simpl; intros Hnd Htag;
    [reflexivity|].
  inversion Hnd as [|? ? Hfresh Hnd']; subst.
  change (all_results token_set_ratio ((n, c) :: rest) terms)
    with (matching token_set_ratio terms c
          ++ all_results token_set_ratio rest terms)%list.
  rewrite filter_app, IH;
    [| exact Hnd' | intros n' c' p Hin; apply Htag; now right].
  assert (Hc : forall p, In p (matching token_set_ratio terms c) ->
                         Catalog p = n).
  { intros p Hp. apply filter_In in Hp. destruct Hp as [Hp _].
    apply (Htag n c p); [now left | exact Hp]. }
  destruct (String.eqb n vendor) eqn:E.
  - apply String.eqb_eq in E. subst vendor.
    rewrite (dict_get_absent rest n Hfresh), app_nil_r.
    apply filter_unchanged_iff. intros p Hp. apply String.eqb_eq. now apply Hc.
  - replace (filter (fun row => String.eqb (Catalog row) vendor)
                    (matching token_set_ratio terms c)) with (@nil product);
      [reflexivity|].
    symmetry. apply filter_none. intros p Hp. rewrite (Hc p Hp). exact E.
Qed.

Lemma loaded_names_distinct (config : list (string * vendor_config))
    (dir : directory) :
  NoDup (map fst config) ->
  NoDup (map fst (fst (load_catalogs_with config dir))).
Proof.
  intro Hnd. unfold load_catalogs_with.
  rewrite load_loop_appends; [| exact Hnd | intros n _ []]. simpl.
  induction config as [|[name cfg] rest IH]; simpl; [constructor|].
  inversion Hnd as [|? ? Hfresh Hnd']; subst.
  assert (Hkeys : forall n,
            In n (map fst
                    (flat_map (fun kv =>
                       match entry_of (load_vendor (fst kv) (snd kv)
                                         (dir (filename (snd kv)))) with
                       | Some c => [(fst kv, c)]
                       | None => []
                       end) rest)) ->
            In n (map fst rest)).
  { clear. induction rest as [|[n' cfg'] rest IH]; simpl; [auto|].
    intros n Hn. rewrite map_app in Hn. apply in_app_or in Hn.
    destruct Hn as [Hn | Hn]; [|right; now apply IH].
    destruct (entry_of _); simpl in Hn; [|destruct Hn].
    destruct Hn as [<- | []]. now left. }
  destruct (entry_of (load_vendor name cfg (dir (filename cfg)))); simpl.
  - constructor; [|now apply IH]. intro Hn. apply Hfresh. now apply Hkeys.
  - now apply IH.
Qed.

Lemma loaded_product_tag (config : list (string * vendor_config))
    (dir : directory) (name : string) (c : catalog) (p : product) :
  In (name, c) (fst (load_catalogs_with config dir)) -> In p (data c) ->
  Catalog p = name.
Proof.
  intros Hc Hp.
  destruct (loaded_product_source _ _ _ _ _ Hc Hp)
    as (cfg & sheets & df & row & _ & _ & _ & _ & Hrp).
  now destruct (row_product_some _ _ _ _ _ Hrp)
    as (code & desc & price & parts & _ & _ & _ & _ & _ & _ & _ & _ & Htag).
Qed.

(** X13. Selecting one vendor shows the search results of that vendor's
    own catalog: when the catalogs have distinct names and every row is
    tagged with its catalog's name (as the loader's are), the rows the
    filter leaves have the descriptions, prices and tags of the matches of
    the catalog stored under the selected name, in its order, and there is
    none when there is no catalog for that vendor. *)
Theorem vendor_filter_is_vendor_search
    (token_set_ratio : string -> string -> Z)
    (catalogs : list (string * catalog)) (query vendor : string) :
  NoDup (map fst catalogs) ->
  (forall n c p, In (n, c) catalogs -> In p (data c) -> Catalog p = n) ->
  vendor <> "All" ->
  map (fun row => (Product row, Price row, Catalog row))
      (filtered_results vendor
         (all_results token_set_ratio catalogs (split (lower query))))
  = map (fun row => (Product row, Price row, Catalog row))
        match dict_get catalogs vendor with
        | Some c => matching token_set_ratio (split (lower query)) c
        | None => []
        end.
Proof.
  intros Hnd Htag Hv. rewrite (filtered_results_vendor _ _ Hv).
  f_equal. now apply vendor_rows_of_results.
Qed.

Lemma vendor_filter_is_vendor_search_witness :
  let catalogs := fst (load_catalogs_with catalog_config Samples.dir_no_crown) in
  NoDup (map fst catalogs) /\
  (forall n c p, In (n, c) catalogs -> In p (data c) -> Catalog p = n) /\
  "PPG" <> "All" /\ "Crown" <> "All" /\
  map (fun row => (Product row, Price row, Catalog row))
      (filtered_results "PPG"
         (all_results Samples.token_hit_ratio catalogs (split (lower "matte"))))
  = [("Red Matte", "£7.10", "PPG")] /\
  map (fun row => (Product row, Price row, Catalog row))
      (filtered_results "Crown"
         (all_results Samples.token_hit_ratio catalogs (split (lower "matte"))))
  = [].
Proof.
  cbv zeta.
  assert (H0 : NoDup (map fst (fst (load_catalogs_with catalog_config
                                      Samples.dir_no_crown))))
    by (apply loaded_names_distinct; exact catalog_config_names_distinct).
  assert (Ht : forall n c p,
            In (n, c) (fst (load_catalogs_with catalog_config
                              Samples.dir_no_crown)) ->
            In p (data c) -> Catalog p = n)
    by (intros n c p; apply loaded_product_tag).
  assert (H1 : "PPG" <> "All") by discriminate.
  assert (H2 : "Crown" <> "All") by discriminate.
  split; [exact H0|]. split; [exact Ht|].
  split; [exact H1|]. split; [exact H2|]. split.
  - rewrite (vendor_filter_is_vendor_search Samples.token_hit_ratio
               _ "matte" "PPG" H0 Ht H1).
    vm_compute. reflexivity.
  - rewrite (vendor_filter_is_vendor_search Samples.token_hit_ratio
               _ "matte" "Crown" H0 Ht H2).
    vm_compute. reflexivity.
Defined.

(** X14. When a query matches rows but none of the selected vendor, the
    page does not show the "no products" warning: it shows the success
    message "Found 0 product(s) in" the vendor, and an empty table. *)
Theorem unmatched_vendor_shows_empty_table
    (token_set_ratio : string -> string -> Z)
    (catalogs : list (string * catalog)) (query vendor : string)
    (search_button : bool) :
  query <> "" -> vendor <> "All" ->
  all_results token_set_ratio catalogs (split (lower query)) <> [] ->
  (forall row,
     In row (all_results token_set_ratio catalogs (split (lower query))) ->
     Catalog row <> vendor) ->
  search_block token_set_ratio catalogs query vendor search_button
  = [st_success ("Found 0 product(s) in " ++ vendor); st_dataframe []].
Proof.
  intros Hq Hv Hsome Hother.
  rewrite (search_block_query _ _ _ _ _ Hq). cbv zeta.
  set (results := all_results token_set_ratio catalogs (split (lower query)))
    in *.
  assert (Hlen : (0 <? len results) = true).
  { apply Z.ltb_lt. unfold len. destruct results; [now elim Hsome|].
    simpl. lia. }
  assert (Hnone : filtered_results vendor results = []).
  { rewrite (filtered_results_vendor _ _ Hv). apply filter_none.
    intros row Hrow. apply String.eqb_neq. now apply Hother. }
  rewrite Hlen, Hnone. reflexivity.
Qed.

Lemma unmatched_vendor_shows_empty_table_witness :
  "blue" <> "" /\ "PPG" <> "All" /\
  page Samples.token_hit_ratio Samples.dir_no_crown "blue" "PPG" false
  = [st_success "Found 0 product(s) in PPG"; st_dataframe []].
Proof.
  assert (H1 : "blue" <> "") by discriminate.
  assert (H2 : "PPG" <> "All") by discriminate.
  split; [exact H1|]. split; [exact H2|].
  assert (Hpage : page Samples.token_hit_ratio Samples.dir_no_crown "blue"
                    "PPG" false
                  = search_block Samples.token_hit_ratio
                      (fst (load_paint_catalogs Samples.dir_no_crown))
                      "blue" "PPG" false) by (vm_compute; reflexivity).
  rewrite Hpage.
  apply (unmatched_vendor_shows_empty_table Samples.token_hit_ratio
           (fst (load_paint_catalogs Samples.dir_no_crown)) "blue" "PPG" false
           H1 H2).
  - vm_compute. discriminate.
  - intros row Hrow. vm_compute in Hrow.
    destruct Hrow as [<- | [<- | []]]; discriminate.
Defined.

Lemma search_block_never_errors (token_set_ratio : string -> string -> Z)
    (catalogs : list (string * catalog)) (query catalog_filter : string)
    (search_button : bool) (msg : string) :
  ~ In (st_error msg)
       (search_block token_set_ratio catalogs query catalog_filter
                     search_button).
Proof.
  unfold search_block.
  destruct (truthy_str query || search_button)%bool; [|intros []].
  destruct (negb _); [intros [H | []]; discriminate|].
  cbv zeta. destruct (0 <? len _).
  - intros [H | [H | []]]; discriminate.
  - intros [H | []]; discriminate.
Qed.

(** X15. The error "No paint catalogs found" is shown exactly when no
    vendor gave a catalog. Then the page shows the loader's warnings and
    the error and nothing of the search, whatever is typed, selected or
    pressed; and as soon as one vendor gave a catalog the error is never
    shown. *)
Theorem error_only_without_catalogs (token_set_ratio : string -> string -> Z)
    (dir : directory) (search_query catalog_filter : string)
    (search_button : bool) :
  ((forall name cfg, In (name, cfg) catalog_config ->
      entry_of (load_vendor name cfg (dir (filename cfg))) = None) ->
   page token_set_ratio dir search_query catalog_filter search_button
   = (map (fun w => st_warning (warning_text (fst w) (snd w)))
          (snd (load_paint_catalogs dir))
      ++ [st_error
            "No paint catalogs found. Please ensure Excel files are in data/paint/ directory."])%list) /\
  ((exists name cfg, In (name, cfg) catalog_config /\
      entry_of (load_vendor name cfg (dir (filename cfg))) <> None) ->
   forall msg,
     ~ In (st_error msg)
          (page token_set_ratio dir search_query catalog_filter
                search_button)).
Proof.
  pose proof (load_loop_get dir catalog_config catalog_config_names_distinct
                [] []) as Hget.
  split.
  - intro Hnone.
    assert (Hempty : fst (load_paint_catalogs dir) = []).
    { unfold load_paint_catalogs, load_catalogs_with.
      rewrite load_loop_appends;
        [| exact catalog_config_names_distinct | intros n _ []].
      cbn [fst app]. unfold catalog_config. cbn [flat_map fst snd].
      rewrite (Hnone "Akzo" akzo_config) by (left; reflexivity).
      rewrite (Hnone "Crown" crown_config) by (right; left; reflexivity).
      rewrite (Hnone "PPG" ppg_config) by (do 2 right; left; reflexivity).
      reflexivity. }
    unfold page. destruct (load_paint_catalogs dir) as [catalogs warnings].
    simpl in Hempty. subst catalogs. reflexivity.
  - intros (name & cfg & Hin & Hsome) msg Herr.
    assert (Hloaded : dict_get (fst (load_paint_catalogs dir)) name <> None).
    { unfold load_paint_catalogs, load_catalogs_with.
      rewrite (Hget name cfg Hin).
      destruct (load_vendor name cfg (dir (filename cfg))) as [[c|]|e];
        simpl in *; [discriminate | exact Hsome | exact Hsome]. }
    unfold page in Herr.
    destruct (load_paint_catalogs dir) as [catalogs warnings]. simpl in *.
    apply in_app_or in Herr. destruct Herr as [Herr | Herr].
    + apply in_map_iff in Herr. destruct Herr as (w & Hw & _). discriminate.
    + destruct catalogs as [|kv rest]; [now elim Hloaded|].
      now apply search_block_never_errors in Herr.
Qed.

Lemma error_only_without_catalogs_witness :
  page Samples.token_hit_ratio (fun _ => Missing) "blue" "All" true
  = [st_error
       "No paint catalogs found. Please ensure Excel files are in data/paint/ directory."] /\
  ~ In (st_error "No paint catalogs found. Please ensure Excel files are in data/paint/ directory.")
       (page Samples.token_hit_ratio Samples.dir_bad_crown "blue" "All" true).
Proof.
  split.
  - exact (proj1 (error_only_without_catalogs Samples.token_hit_ratio
                    (fun _ => Missing) "blue" "All" true)
                 ltac:(intros name cfg _; reflexivity)).
  - apply (proj2 (error_only_without_catalogs Samples.token_hit_ratio
                    Samples.dir_bad_crown "blue" "All" true)).
    exists "Akzo", akzo_config. split; [left; reflexivity|].
    vm_compute. discriminate.
Defined.

(** X16. The match score stays on the scorer's scale: when every score of
    the scorer lies between 0 and 100, so does the match score of every row
    for every list of terms, the empty one included. *)
Theorem match_score_in_range (token_set_ratio : string -> string -> Z)
    (row : product) (search_terms : list string) :
  (forall term field, 0 <= token_set_ratio term field <= 100) ->
  0 <= match_score token_set_ratio row search_terms <= 100.
Proof.
  intro Hrange.
  destruct search_terms as [|t ts] eqn:E; [simpl; lia|]. rewrite <- E.
  destruct (match_score_is_minimum token_set_ratio row search_terms)
    as [_ (term & _ & ->)]; [rewrite E; discriminate|].
  unfold term_score.
  pose proof (Hrange term (lower (str (Code row)))).
  pose proof (Hrange term (lower (Product row))). lia.
Qed.

Lemma match_score_in_range_witness :
  (forall term field, 0 <= Samples.token_hit_ratio term field <= 100) /\
  0 <= match_score Samples.token_hit_ratio Samples.blue_gloss
         ["blue"; "matte"] <= 100.
Proof.
  assert (H : forall term field,
            0 <= Samples.token_hit_ratio term field <= 100).
  { intros term field. unfold Samples.token_hit_ratio.
    destruct (existsb _ _); lia. }
  split; [exact H|].
  exact (match_score_in_range Samples.token_hit_ratio Samples.blue_gloss
           ["blue"; "matte"] H).
Defined.
